(** * Conference booking service (app.py): booking, waitlist and cancellation

    A shallow embedding of the Flask view functions of [app.py] and of the
    module-level dictionaries they mutate, followed by the properties of the
    allocation engine: slot accounting, waitlist confirmation, automatic
    promotion and cancellation. *)

From Stdlib Require Import ZArith List String Ascii Bool Lia Permutation Relations.
Import ListNotations.
Open Scope string_scope.
Open Scope list_scope.
Open Scope Z_scope.

(** ** Python dictionaries

    A Python [dict] keeps its keys in insertion order, and the program
    observes that order (the duplicate scan of [book_conference] reports the
    first matching booking, the 404 answer dumps [conferences]).  A dictionary
    is therefore an association list without repeated keys, oldest key first. *)

Class Key (K : Type) := {
  keqb : K -> K -> bool;
  keqb_spec : forall a b, reflect (a = b) (keqb a b)
}.

#[export] Instance string_Key : Key string :=
  {| keqb := String.eqb; keqb_spec := String.eqb_spec |}.

#[export] Instance N_Key : Key N :=
  {| keqb := N.eqb; keqb_spec := N.eqb_spec |}.

Module PyDict.
Section Dict.
Context {K V : Type} `{Key K}.

Definition dict := list (K * V).

(** [d.get(k)] *)
Fixpoint get (k : K) (d : dict) : option V :=
  match d with
  | [] => None
  | (k', v) :: d' => if keqb k k' then Some v else get k d'
  end.

(** [k in d] *)
Definition contains (k : K) (d : dict) : bool :=
  match get k d with Some _ => true | None => false end.

(** [d[k] = v]: an existing key keeps its position, a new key goes last. *)
Fixpoint set (k : K) (v : V) (d : dict) : dict :=
  match d with
  | [] => [(k, v)]
  | (k', v') :: d' => if keqb k k' then (k', v) :: d' else (k', v') :: set k v d'
  end.

(** [del d[k]] / [d.pop(k)]; the program only deletes keys it has just
    looked up, so the [KeyError] of an absent key does not arise. *)
Fixpoint del (k : K) (d : dict) : dict :=
  match d with
  | [] => []
  | (k', v') :: d' => if keqb k k' then del k d' else (k', v') :: del k d'
  end.

(** [d.values()] *)
Definition values (d : dict) : list V := map snd d.
End Dict.
Arguments dict : clear implicits.
End PyDict.

(** ** Data model *)

(** [uuid.uuid4()] yields a 128-bit identifier; an identifier is modelled by
    the number it denotes.  The generator is an external collaborator that
    never repeats an identifier: the state counts the identifiers issued and
    the next one is that count. *)
Definition uuid := N.

(** [datetime] values are counted in microseconds, the resolution of
    [datetime]; [hour] is [timedelta(hours=1)]. *)
Definition datetime := Z.
Definition hour : Z := 3600 * 1000000.

(** What [datetime.fromisoformat] yields for a timestamp field of a
    conference: a naive [datetime] when the text carries no offset, an aware
    one (counted in UTC) when it does; a trailing "Z" is replaced by "+00:00"
    first and so gives an aware one. *)
Inductive timestamp :=
  | Naive (t : datetime)
  | Aware (t : datetime).

(** [a >= b] on two [datetime] objects; [None] stands for the [TypeError]
    Python raises when one is naive and the other aware. *)
Definition timestamp_ge (a b : timestamp) : option bool :=
  match a, b with
  | Naive x, Naive y | Aware x, Aware y => Some (x >=? y)
  | _, _ => None
  end.

(** [a - b] on two [datetime] objects, in microseconds; [None] stands for
    the [TypeError] of a naive and an aware operand. *)
Definition timestamp_sub (a b : timestamp) : option Z :=
  match a, b with
  | Naive x, Naive y | Aware x, Aware y => Some (x - y)
  | _, _ => None
  end.

(** The dictionary stored in [conferences]. *)
Record conference := mkConference {
  name : string;
  location : string;
  topics : string;
  start_timestamp : option timestamp;
  end_timestamp : option timestamp;
  available_slots : Z;
  waitlist : list uuid
}.

(** The dictionary stored in [users]. *)
Record user := mkUser {
  UserID : string;
  Interested_Topics : string
}.

(** The dictionary stored in [bookings]. *)
Record booking := mkBooking {
  booking_id : uuid;
  b_UserID : string;
  b_Conference : string;
  b_timestamp : datetime
}.

(** The dictionary stored in [waitlists]. *)
Record waitlist_entry := mkWaitlistEntry {
  w_UserID : string;
  w_Conference : string;
  w_timestamp : datetime
}.

(** The four module-level dictionaries, and the identifiers issued so far. *)
Record state := mkState {
  conferences : PyDict.dict string conference;
  users : PyDict.dict string user;
  bookings : PyDict.dict uuid booking;
  waitlists : PyDict.dict uuid waitlist_entry;
  issued : uuid
}.

Definition initial : state := mkState [] [] [] [] 0%N.

Definition with_conferences (cs : PyDict.dict string conference) (st : state) : state :=
  mkState cs (users st) (bookings st) (waitlists st) (issued st).
Definition with_users (us : PyDict.dict string user) (st : state) : state :=
  mkState (conferences st) us (bookings st) (waitlists st) (issued st).
Definition with_bookings (bs : PyDict.dict uuid booking) (st : state) : state :=
  mkState (conferences st) (users st) bs (waitlists st) (issued st).
Definition with_waitlists (ws : PyDict.dict uuid waitlist_entry) (st : state) : state :=
  mkState (conferences st) (users st) (bookings st) ws (issued st).

(** [str(uuid.uuid4())] *)
Definition uuid4 (st : state) : uuid * state :=
  (issued st,
   mkState (conferences st) (users st) (bookings st) (waitlists st) (N.succ (issued st))).

Definition set_available_slots (n : Z) (c : conference) : conference :=
  mkConference (name c) (location c) (topics c) (start_timestamp c)
    (end_timestamp c) n (waitlist c).
Definition set_waitlist (q : list uuid) (c : conference) : conference :=
  mkConference (name c) (location c) (topics c) (start_timestamp c)
    (end_timestamp c) (available_slots c) q.

(** ** What a view function hands back *)

Inductive exception :=
  | TypeError (msg : string)
  | ValueError (msg : string).

(** The argument of [jsonify]. *)
Inductive json :=
  | JError (error : string)
  | JErrorConferences (error : string) (available_conferences : PyDict.dict string conference)
  | JErrorBooking (error : string) (booking_id : uuid)
  | JMessage (message : string)
  | JBooked (booking_id : uuid)
  | JWaitlisted (waitlist_id : uuid) (message : string)
  | JConfirmed (booking_id : uuid) (message : string)
  | JStatus (status conference_name user_id : string).

Inductive outcome :=
  | Response (body : json) (status : Z)   (* return jsonify(body), status *)
  | ReturnedNone                          (* the function body ends without return *)
  | Raised (e : exception).               (* an exception leaves the view function *)

(** What a helper hands back: a value, or an exception. *)
Inductive result (A : Type) :=
  | Ok (a : A)
  | Raise (e : exception).
Arguments Ok {A} a.
Arguments Raise {A} e.

(** ** String methods used by the validators

    The text fields of a request are ASCII strings, and on ASCII text the
    methods below are Python's.  (Outside ASCII [str.isalnum] also accepts
    other letters and digits and [str.strip] other white space; such text is
    not covered: a byte above 127 counts here as neither alphanumeric nor
    white space.) *)

Definition is_alnum_char (a : ascii) : bool :=
  let n := nat_of_ascii a in
  ((48 <=? n) && (n <=? 57) || (65 <=? n) && (n <=? 90) || (97 <=? n) && (n <=? 122))%nat.

Definition is_space_char (a : ascii) : bool :=
  let n := nat_of_ascii a in
  ((9 <=? n) && (n <=? 13) || (28 <=? n) && (n <=? 32))%nat.

Fixpoint all_chars (p : ascii -> bool) (s : string) : bool :=
  match s with
  | EmptyString => true
  | String a s' => p a && all_chars p s'
  end.

(** [s.isalnum()]: every character alphanumeric and at least one character. *)
Definition isalnum (s : string) : bool :=
  match s with
  | EmptyString => false
  | _ => all_chars is_alnum_char s
  end.

(** [s.replace(" ", "")] *)
Fixpoint remove_spaces (s : string) : string :=
  match s with
  | EmptyString => EmptyString
  | String a s' =>
      if Ascii.eqb a " "%char then remove_spaces s' else String a (remove_spaces s')
  end.

Fixpoint lstrip (s : string) : string :=
  match s with
  | EmptyString => EmptyString
  | String a s' => if is_space_char a then lstrip s' else s
  end.

Fixpoint rstrip (s : string) : string :=
  match s with
  | EmptyString => EmptyString
  | String a s' =>
      match rstrip s' with
      | EmptyString => if is_space_char a then EmptyString else String a EmptyString
      | r => String a r
      end
  end.

(** [s.strip()] *)
Definition strip (s : string) : string := rstrip (lstrip s).

(** [s.split(",")] *)
Fixpoint split_comma (s : string) : list string :=
  match s with
  | EmptyString => [EmptyString]
  | String a s' =>
      if Ascii.eqb a ","%char then EmptyString :: split_comma s'
      else match split_comma s' with
           | [] => [String a EmptyString]
           | w :: ws => String a w :: ws
           end
  end.

(** ** Validators *)

(** The JSON body of [/add_user]: a missing "Interested Topics" reads as the
    empty string, as [data.get("Interested Topics", "")] does. *)
Record user_data := mkUserData {
  d_UserID : string;
  d_Interested_Topics : string
}.

(** The JSON body of [/add_conference] with its six required fields.  A
    timestamp field holds what [datetime.fromisoformat] makes of the text
    (naive or aware), [None] when it raises [ValueError];
    [d_available_slots] is a JSON integer. *)
Record conference_data := mkConferenceData {
  d_name : string;
  d_location : string;
  d_topics : string;
  d_start_timestamp : option timestamp;
  d_end_timestamp : option timestamp;
  d_available_slots : Z
}.

Definition validate_user (data : user_data) : bool * string :=
  if negb (isalnum (d_UserID data)) then
    (false, "Invalid UserID. Only alphanumeric characters are allowed.")
  else
    let topics := split_comma (d_Interested_Topics data) in
    if (50 <? Z.of_nat (List.length topics))
       || existsb (fun topic => negb (isalnum (remove_spaces (strip topic)))) topics
    then (false, "Invalid interested topics. Maximum 50 alphanumeric strings allowed, separated by commas.")
    else (true, "").

(** The comparison and the subtraction of the two timestamps stand outside
    the [try] block, so their [TypeError] on a naive and an aware timestamp
    leaves the validator. *)
Definition validate_conference (data : conference_data) : result (bool * string) :=
  if negb (isalnum (remove_spaces (d_name data))) then
    Ok (false, "Invalid conference name. Only alphanumeric characters and spaces are allowed.")
  else if negb (isalnum (remove_spaces (d_location data))) then
    Ok (false, "Invalid location. Only alphanumeric characters and spaces are allowed.")
  else
    let topics := split_comma (d_topics data) in
    if (10 <? Z.of_nat (List.length topics))
       || existsb (fun topic => negb (isalnum (remove_spaces topic))) topics
    then Ok (false, "Invalid topics. Maximum 10 alphanumeric strings allowed, separated by commas.")
    else
      match d_start_timestamp data, d_end_timestamp data with
      | Some start_timestamp, Some end_timestamp =>
          match timestamp_ge start_timestamp end_timestamp with
          | None =>
              Raise (TypeError "can't compare offset-naive and offset-aware datetimes")
          | Some true => Ok (false, "Start timestamp must be before end timestamp.")
          | Some false =>
              match timestamp_sub end_timestamp start_timestamp with
              | None =>
                  Raise (TypeError "can't subtract offset-naive and offset-aware datetimes")
              | Some duration =>
                  if duration >? 12 * hour then
                    Ok (false, "Conference duration should not exceed 12 hours.")
                  else if d_available_slots data <=? 0 then
                    Ok (false, "Available slots must be an integer greater than 0.")
                  else Ok (true, "")
              end
          end
      | _, _ => Ok (false, "Invalid timestamps. Use ISO format.")
      end.

(** ** View functions

    Each view function runs at one reading [now] of the clock
    ([datetime.utcnow()]) on the current dictionaries and yields what it
    returns together with the dictionaries it leaves behind. *)

Definition add_user (data : user_data) (st : state) : outcome * state :=
  let '(is_valid, message) := validate_user data in
  if negb is_valid then (Response (JError message) 400, st)
  else
    let user_id := d_UserID data in
    if PyDict.contains user_id (users st) then
      (Response (JError "UserID already exists.") 400, st)
    else
      (Response (JMessage "User added successfully.") 200,
       with_users (PyDict.set user_id (mkUser user_id (d_Interested_Topics data)) (users st)) st).

Definition add_conference (data : conference_data) (st : state) : outcome * state :=
  match validate_conference data with
  | Raise e => (Raised e, st)
  | Ok (is_valid, message) =>
      if negb is_valid then (Response (JError message) 400, st)
      else
        let conference_name := d_name data in
        if PyDict.contains conference_name (conferences st) then
          (Response (JError "Conference name already exists.") 400, st)
        else
          (Response (JMessage "Conference added successfully.") 200,
           with_conferences
             (PyDict.set conference_name
                (mkConference (d_name data) (d_location data) (d_topics data)
                   (d_start_timestamp data) (d_end_timestamp data)
                   (d_available_slots data) [])
                (conferences st)) st)
  end.

(** The scan [for booking in bookings.values()] of [book_conference]: the
    first booking, oldest first, of this user for this conference. *)
Definition find_booking (user_id conference_name : string)
    (bs : PyDict.dict uuid booking) : option booking :=
  find (fun booking =>
          String.eqb (b_UserID booking) user_id
          && String.eqb (b_Conference booking) conference_name)
       (PyDict.values bs).

Definition book_conference (now : datetime) (conference_name user_id : string)
    (st : state) : outcome * state :=
  match PyDict.get conference_name (conferences st) with
  | None => (Response (JErrorConferences "Conference not found." (conferences st)) 404, st)
  | Some conference =>
      if negb (PyDict.contains user_id (users st)) then
        (Response (JError "UserID not found.") 404, st)
      else
        match find_booking user_id conference_name (bookings st) with
        | Some booking =>
            (Response (JErrorBooking "User already has a booking for this conference."
                         (booking_id booking)) 400, st)
        | None =>
            if available_slots conference <=? 0 then
              let '(waitlist_id, st1) := uuid4 st in
              let st2 :=
                with_waitlists
                  (PyDict.set waitlist_id (mkWaitlistEntry user_id conference_name now)
                     (waitlists st1)) st1 in
              let st3 :=
                with_conferences
                  (PyDict.set conference_name
                     (set_waitlist (waitlist conference ++ [waitlist_id]) conference)
                     (conferences st2)) st2 in
              (Response (JWaitlisted waitlist_id "Added to waitlist.") 200, st3)
            else
              let '(booking_id, st1) := uuid4 st in
              let st2 :=
                with_bookings
                  (PyDict.set booking_id
                     (mkBooking booking_id user_id conference_name now)
                     (bookings st1)) st1 in
              let st3 :=
                with_conferences
                  (PyDict.set conference_name
                     (set_available_slots (available_slots conference - 1) conference)
                     (conferences st2)) st2 in
              (Response (JBooked booking_id) 200, st3)
        end
  end.

(** [q.remove(x)]: drops the first occurrence of [x]; [None] stands for the
    [ValueError] raised when [x] is not in the list. *)
Fixpoint list_remove (x : uuid) (q : list uuid) : option (list uuid) :=
  match q with
  | [] => None
  | y :: q' =>
      if N.eqb x y then Some q'
      else match list_remove x q' with
           | Some r => Some (y :: r)
           | None => None
           end
  end.

Definition confirm_waitlist_booking (now : datetime) (waitlist_id : uuid)
    (st : state) : outcome * state :=
  match PyDict.get waitlist_id (waitlists st) with
  | None => (Response (JError "Waitlist entry not found.") 404, st)
  | Some waitlist_entry =>
      let conference_name := w_Conference waitlist_entry in
      match PyDict.get conference_name (conferences st) with
      | None => (Response (JError "Conference not found.") 404, st)
      | Some conference =>
          if available_slots conference <=? 0 then
            (Response (JError "No slots available.") 400, st)
          else if now - w_timestamp waitlist_entry >? hour then
            match list_remove waitlist_id (waitlist conference) with
            | None => (Raised (ValueError "list.remove(x): x not in list"), st)
            | Some q =>
                (Response (JError "Confirmation window expired. Moved to end of waitlist.") 400,
                 with_conferences
                   (PyDict.set conference_name
                      (set_waitlist (q ++ [waitlist_id]) conference)
                      (conferences st)) st)
            end
          else
            let '(booking_id, st1) := uuid4 st in
            let st2 :=
              with_bookings
                (PyDict.set booking_id
                   (mkBooking booking_id (w_UserID waitlist_entry) conference_name now)
                   (bookings st1)) st1 in
            let st3 :=
              with_conferences
                (PyDict.set conference_name
                   (set_available_slots (available_slots conference - 1) conference)
                   (conferences st2)) st2 in
            let st4 := with_waitlists (PyDict.del waitlist_id (waitlists st3)) st3 in
            (Response (JConfirmed booking_id "Booking confirmed from waitlist.") 200, st4)
      end
  end.

(** The [while] loop of [process_waitlist].  [queue] and [slots] are the
    "waitlist" and "available_slots" of the conference object the loop
    mutates; [st] carries [bookings], [waitlists] and the identifier
    generator.  An iteration that does not leave the loop continues on the
    rest of the queue, so the loop is structural in [queue].  A stored entry
    is a non-empty dictionary and its "timestamp" a [datetime], both true in
    a condition, so the [if] comes down to the lookup and the age test.  The
    [print] that announces a promotion touches no dictionary and is left
    out. *)
Fixpoint promotion_loop (conference_name : string) (now : datetime)
    (queue : list uuid) (slots : Z) (st : state) : list uuid * Z * state :=
  match queue with
  | [] => (queue, slots, st)
  | waitlist_id :: rest =>
      if slots >? 0 then
        match PyDict.get waitlist_id (waitlists st) with
        | Some waitlist_entry =>
            if now - w_timestamp waitlist_entry >? hour then
              let user_id := w_UserID waitlist_entry in
              let '(booking_id, st1) := uuid4 st in
              let st2 :=
                with_bookings
                  (PyDict.set booking_id
                     (mkBooking booking_id user_id conference_name now)
                     (bookings st1)) st1 in
              let st3 := with_waitlists (PyDict.del waitlist_id (waitlists st2)) st2 in
              promotion_loop conference_name now rest (slots - 1) st3
            else (rest ++ [waitlist_id], slots, st)
        | None => (rest ++ [waitlist_id], slots, st)
        end
      else (queue, slots, st)
  end.

(** What a caller may pass as [conference_name]: a string, or a conference
    dictionary (which is what [cancel_booking] passes). *)
Inductive pyarg :=
  | PyStr (s : string)
  | PyConference (c : conference).

(** [conferences.get(conference_name)] hashes its argument: a dictionary is
    unhashable and the call raises [TypeError]. *)
Definition process_waitlist (conference_name : pyarg) (now : datetime)
    (st : state) : result state :=
  match conference_name with
  | PyConference _ => Raise (TypeError "unhashable type: 'dict'")
  | PyStr conference_name =>
      match PyDict.get conference_name (conferences st) with
      | None => Ok st
      | Some conference =>
          let '(queue, slots, st1) :=
            promotion_loop conference_name now
              (waitlist conference) (available_slots conference) st in
          Ok (with_conferences
                (PyDict.set conference_name
                   (set_waitlist queue (set_available_slots slots conference))
                   (conferences st1)) st1)
      end
  end.

Definition cancel_booking (now : datetime) (booking_id : uuid)
    (st : state) : outcome * state :=
  match PyDict.get booking_id (bookings st) with
  | Some booking =>
      match PyDict.get (b_Conference booking) (conferences st) with
      | None => (Raised (TypeError "'NoneType' object is not subscriptable"), st)
      | Some conference0 =>
          let conference :=
            set_available_slots (available_slots conference0 + 1) conference0 in
          let st1 :=
            with_conferences
              (PyDict.set (b_Conference booking) conference (conferences st)) st in
          let processed :=
            match waitlist conference with
            | [] => Ok st1
            | _ :: _ => process_waitlist (PyConference conference) now st1
            end in
          match processed with
          | Raise e => (Raised e, st1)
          | Ok st2 =>
              (Response (JMessage "Booking canceled successfully.") 200,
               with_bookings (PyDict.del booking_id (bookings st2)) st2)
          end
      end
  | None =>
      match PyDict.get booking_id (waitlists st) with
      | Some waitlist_entry =>
          (Response (JMessage "Removed from waitlist successfully.") 200,
           with_waitlists (PyDict.del booking_id (waitlists st)) st)
      | None => (ReturnedNone, st)
      end
  end.

Definition booking_status (booking_id : uuid) (st : state) : outcome * state :=
  match PyDict.get booking_id (bookings st) with
  | Some booking =>
      (Response (JStatus "Confirmed" (b_Conference booking) (b_UserID booking)) 200, st)
  | None =>
      match PyDict.get booking_id (waitlists st) with
      | Some waitlist_entry =>
          (Response (JStatus " In Waitlist" (w_Conference waitlist_entry)
                       (w_UserID waitlist_entry)) 200, st)
      | None => (Response (JError "Booking ID not found.") 404, st)
      end
  end.

(** ** The service as a transition system *)

Inductive request :=
  | AddUser (data : user_data)
  | AddConference (data : conference_data)
  | BookConference (Name UserID : string)
  | ConfirmWaitlistBooking (booking_id : uuid)
  | CancelBooking (booking_id : uuid)
  | BookingStatus (booking_id : uuid).

(** One request served at clock reading [now]. *)
Definition handle (now : datetime) (r : request) (st : state) : outcome * state :=
  match r with
  | AddUser data => add_user data st
  | AddConference data => add_conference data st
  | BookConference conference_name user_id => book_conference now conference_name user_id st
  | ConfirmWaitlistBooking waitlist_id => confirm_waitlist_booking now waitlist_id st
  | CancelBooking booking_id => cancel_booking now booking_id st
  | BookingStatus booking_id => booking_status booking_id st
  end.

(** The dictionaries after a sequence of timed requests; an exception ends
    one request (the server answers 500) and the dictionaries stay as the
    request left them. *)
Fixpoint run (trace : list (datetime * request)) (st : state) : state :=
  match trace with
  | [] => st
  | (now, r) :: trace' => run trace' (snd (handle now r st))
  end.

(** Outcomes of every request of a trace, in order. *)
Fixpoint outcomes (trace : list (datetime * request)) (st : state) : list outcome :=
  match trace with
  | [] => []
  | (now, r) :: trace' =>
      fst (handle now r st) :: outcomes trace' (snd (handle now r st))
  end.

(** States the service can be in: any number of requests, and of promotion
    passes run on a conference name as [process_waitlist] expects. *)
Inductive step : state -> state -> Prop :=
  | step_request now r st :
      step st (snd (handle now r st))
  | step_promotion now conference_name st st' :
      process_waitlist (PyStr conference_name) now st = Ok st' ->
      step st st'.

Inductive reachable : state -> Prop :=
  | reachable_initial : reachable initial
  | reachable_step st st' : reachable st -> step st st' -> reachable st'.

(** Active bookings of a conference. *)
Definition active_bookings (conference_name : string) (st : state) : list booking :=
  filter (fun b => String.eqb (b_Conference b) conference_name)
         (PyDict.values (bookings st)).

Definition slots_of (conference_name : string) (st : state) : option Z :=
  option_map available_slots (PyDict.get conference_name (conferences st)).

Definition queue_of (conference_name : string) (st : state) : option (list uuid) :=
  option_map waitlist (PyDict.get conference_name (conferences st)).

(** ** Well-formed states *)

(** What every reachable state satisfies: identifiers not yet issued are in
    no dictionary, a live waitlist entry sits in the queue of its conference,
    and no conference has a negative slot count. *)
Record wf (st : state) : Prop := {
  wf_fresh_bookings :
    forall id, (issued st <= id)%N -> PyDict.get id (bookings st) = None;
  wf_fresh_waitlists :
    forall id, (issued st <= id)%N -> PyDict.get id (waitlists st) = None;
  wf_queued :
    forall id e, PyDict.get id (waitlists st) = Some e ->
      exists conf, PyDict.get (w_Conference e) (conferences st) = Some conf
                   /\ In id (waitlist conf);
  wf_slots :
    forall c conf, PyDict.get c (conferences st) = Some conf ->
      0 <= available_slots conf
}.

(** ** Error values *)

(** An error value handed to the caller: a JSON answer with status 400 or
    404.  An exception, or a view that returns nothing, is not one. *)
Definition is_error_value (o : outcome) : bool :=
  match o with
  | Response _ status => (status =? 400) || (status =? 404)
  | _ => false
  end.

Definition ConfirmationExpired : outcome :=
  Response (JError "Confirmation window expired. Moved to end of waitlist.") 400.

(** ** Moving an identifier to the tail of its queue

    [st'] is [st] after the identifier [id], found in the queue of conference
    [c] between [pre] and [post], was moved to the tail of that queue: the
    conference keeps every other field, every other conference is as it was,
    the conferences stand in the same order, and no other dictionary has
    changed. *)
Definition moved_to_tail (id : uuid) (c : string) (conf : conference)
    (pre post : list uuid) (st st' : state) : Prop :=
  PyDict.get c (conferences st) = Some conf
  /\ waitlist conf = pre ++ id :: post
  /\ ~ In id pre
  /\ PyDict.get c (conferences st')
     = Some (mkConference (name conf) (location conf) (topics conf)
               (start_timestamp conf) (end_timestamp conf)
               (available_slots conf) (pre ++ post ++ [id]))
  /\ (forall c', c' <> c ->
        PyDict.get c' (conferences st') = PyDict.get c' (conferences st))
  /\ map fst (conferences st') = map fst (conferences st)
  /\ users st' = users st
  /\ bookings st' = bookings st
  /\ waitlists st' = waitlists st
  /\ issued st' = issued st.

(** ** The bookings of a promotion pass

    The bookings a pass creates when it promotes the identifiers [ids] in
    this order: one per identifier, for the user of its waitlist entry in
    [ws], for the conference of the pass, stamped [now], under consecutive
    identifiers from [next] on. *)
Fixpoint booked_for (conference_name : string) (now : datetime)
    (ws : PyDict.dict uuid waitlist_entry) (next : uuid) (ids : list uuid)
    : list (uuid * booking) :=
  match ids with
  | [] => []
  | id :: ids' =>
      match PyDict.get id ws with
      | Some e =>
          (next, mkBooking next (w_UserID e) conference_name now)
          :: booked_for conference_name now ws (N.succ next) ids'
      | None => []
      end
  end.

(** ** Scenarios *)

Definition alice : request := AddUser (mkUserData "alice" "ai, systems").
Definition bob : request := AddUser (mkUserData "bob" "ai").
Definition carol : request := AddUser (mkUserData "carol" "databases").
Definition dave : request := AddUser (mkUserData "dave" "proofs").

(** A conference provisioned with a single slot. *)
Definition rocqconf_data : conference_data :=
  mkConferenceData "rocqconf" "hall 1" "ai,proofs"
    (Some (Aware 0)) (Some (Aware hour)) 1.
Definition rocqconf : request := AddConference rocqconf_data.

(** The stored conference once it has [slots] free slots and queue [queue]. *)
Definition rocqconf_with (slots : Z) (queue : list uuid) : conference :=
  mkConference "rocqconf" "hall 1" "ai,proofs"
    (Some (Aware 0)) (Some (Aware hour)) slots queue.

Definition setup : list (datetime * request) :=
  [(0, alice); (0, bob); (0, carol); (0, dave); (0, rocqconf)].

(** alice books (booking 0), bob is waitlisted (entry 1). *)
Definition one_waiting : list (datetime * request) :=
  setup ++ [(1, BookConference "rocqconf" "alice");
            (2, BookConference "rocqconf" "bob")].

(** ... and alice cancels at [now]. *)
Definition cancel_scenario (now : datetime) : list (datetime * request) :=
  one_waiting ++ [(now, CancelBooking 0%N)].

(** alice books (0) and cancels while nobody waits. *)
Definition cancelled_once : list (datetime * request) :=
  setup ++ [(1, BookConference "rocqconf" "alice");
            (2, CancelBooking 0%N)].

(** alice books (0), bob (1) and carol (2) are waitlisted, alice cancels. *)
Definition two_waiting : list (datetime * request) :=
  setup ++ [(1, BookConference "rocqconf" "alice");
            (2, BookConference "rocqconf" "bob");
            (3, BookConference "rocqconf" "carol");
            (4, CancelBooking 0%N)].

(** alice books (0), bob (1) and carol (2) are waitlisted, bob leaves the
    waitlist, alice cancels. *)
Definition orphan_scenario : list (datetime * request) :=
  setup ++ [(1, BookConference "rocqconf" "alice");
            (2, BookConference "rocqconf" "bob");
            (3, BookConference "rocqconf" "carol");
            (4, CancelBooking 1%N);
            (5, CancelBooking 0%N)].

(** alice books (0), bob asks twice and is waitlisted twice (1, 2), alice
    cancels twice. *)
Definition waiting_twice : list (datetime * request) :=
  setup ++ [(1, BookConference "rocqconf" "alice");
            (2, BookConference "rocqconf" "bob");
            (3, BookConference "rocqconf" "bob");
            (4, CancelBooking 0%N);
            (5, CancelBooking 0%N)].

(** ... and bob confirms both entries. *)
Definition double_booking : list (datetime * request) :=
  waiting_twice ++ [(6, ConfirmWaitlistBooking 1%N);
                    (7, ConfirmWaitlistBooking 2%N)].

(** alice books (0); bob (1) and carol (2) are waitlisted at once, dave (3)
    an hour later; alice cancels three times; bob's late confirmation sends
    him to the tail.  The queue is then carol, dave, bob with two entries
    older than an hour around a younger one, and three slots. *)
Definition mixed_queue : list (datetime * request) :=
  setup ++ [(1, BookConference "rocqconf" "alice");
            (2, BookConference "rocqconf" "bob");
            (3, BookConference "rocqconf" "carol");
            (hour, BookConference "rocqconf" "dave");
            (hour + 1, CancelBooking 0%N);
            (hour + 2, CancelBooking 0%N);
            (hour + 3, CancelBooking 0%N);
            (hour + 4, ConfirmWaitlistBooking 1%N)].

(** Bookings of one user for one conference, oldest first. *)
Definition bookings_of (user_id conference_name : string) (st : state) : list uuid :=
  map booking_id
    (filter (fun b => String.eqb (b_UserID b) user_id
                      && String.eqb (b_Conference b) conference_name)
            (PyDict.values (bookings st))).

(** ** Consistent states *)

(** Further facts every reachable state satisfies.  A booking is stored under
    its own identifier and names a registered user and an existing
    conference; a waitlist entry names a registered user; no identifier is a
    booking and a waitlist entry at once; a catalogue record is stored under
    the key it carries; a queue holds issued identifiers, each once, and no
    identifier is in two queues. *)
Record consistent (st : state) : Prop := {
  ok_booking_key :
    forall id b, PyDict.get id (bookings st) = Some b -> booking_id b = id;
  ok_booking_conference :
    forall id b, PyDict.get id (bookings st) = Some b ->
      PyDict.contains (b_Conference b) (conferences st) = true;
  ok_booking_user :
    forall id b, PyDict.get id (bookings st) = Some b ->
      PyDict.contains (b_UserID b) (users st) = true;
  ok_waiting_user :
    forall id e, PyDict.get id (waitlists st) = Some e ->
      PyDict.contains (w_UserID e) (users st) = true;
  ok_conference_key :
    forall c conf, PyDict.get c (conferences st) = Some conf -> name conf = c;
  ok_user_key :
    forall u x, PyDict.get u (users st) = Some x -> UserID x = u;
  ok_ids_disjoint :
    forall id b, PyDict.get id (bookings st) = Some b ->
      PyDict.get id (waitlists st) = None;
  ok_booking_keys : NoDup (map fst (bookings st));
  ok_queue_issued :
    forall c conf id, PyDict.get c (conferences st) = Some conf ->
      In id (waitlist conf) -> (id < issued st)%N;
  ok_queue_unique :
    forall c conf, PyDict.get c (conferences st) = Some conf ->
      NoDup (waitlist conf);
  ok_queues_disjoint :
    forall c c' conf conf' id, c <> c' ->
      PyDict.get c (conferences st) = Some conf ->
      PyDict.get c' (conferences st) = Some conf' ->
      In id (waitlist conf) -> ~ In id (waitlist conf')
}.

(** Any number of steps. *)
Definition steps : state -> state -> Prop := clos_refl_trans state step.

(** Two conference records that agree on everything but slots and queue. *)
Definition same_description (conf conf' : conference) : Prop :=
  name conf' = name conf
  /\ location conf' = location conf
  /\ topics conf' = topics conf
  /\ start_timestamp conf' = start_timestamp conf
  /\ end_timestamp conf' = end_timestamp conf.

(** Free slots plus active bookings of a conference, the quantity the
    allocation is meant to conserve. *)
Definition occupancy (conference_name : string) (st : state) : option Z :=
  option_map
    (fun conf =>
       available_slots conf
       + Z.of_nat (List.length (active_bookings conference_name st)))
    (PyDict.get conference_name (conferences st)).

(** * Properties *)

(** ** Dictionary lemmas *)

Section DictFacts.
Context {K V : Type} `{Key K}.
Implicit Types (k : K) (v : V) (d : PyDict.dict K V).

Lemma keqb_refl k : keqb k k = true.
Proof. destruct (keqb_spec k k); congruence. Qed.

Lemma keqb_neq k k' : k <> k' -> keqb k k' = false.
Proof. intros Hne. destruct (keqb_spec k k'); congruence. Qed.

Lemma get_set_same k v d : PyDict.get k (PyDict.set k v d) = Some v.
Proof.
  induction d as [|[k' v'] d IH]; simpl.
  - now rewrite keqb_refl.
  - destruct (keqb_spec k k') as [->|Hne]; simpl.
    + now rewrite keqb_refl.
    + now rewrite (keqb_neq _ _ Hne).
Qed.

Lemma get_set_other k k' v d :
  k <> k' -> PyDict.get k' (PyDict.set k v d) = PyDict.get k' d.
Proof.
  intros Hne. induction d as [|[k0 v0] d IH]; simpl.
  - rewrite keqb_neq; auto.
  - destruct (keqb_spec k k0) as [->|Hne0]; simpl.
    + rewrite keqb_neq; auto.
    + now rewrite IH.
Qed.

Lemma get_del_same k d : PyDict.get k (PyDict.del k d) = None.
Proof.
  induction d as [|[k' v'] d IH]; simpl; auto.
  destruct (keqb_spec k k') as [->|Hne]; simpl; auto.
  now rewrite (keqb_neq _ _ Hne).
Qed.

Lemma get_del_other k k' d :
  k <> k' -> PyDict.get k' (PyDict.del k d) = PyDict.get k' d.
Proof.
  intros Hne. induction d as [|[k0 v0] d IH]; simpl; auto.
  destruct (keqb_spec k k0) as [->|Hne0]; simpl.
  - rewrite IH. rewrite keqb_neq; auto.
  - now rewrite IH.
Qed.

Lemma get_del_Some k k' v d :
  PyDict.get k' (PyDict.del k d) = Some v -> PyDict.get k' d = Some v.
Proof.
  destruct (keqb_spec k k') as [->|Hne].
  - now rewrite get_del_same.
  - now rewrite get_del_other.
Qed.

(** Assigning to a key that is not in the dictionary appends it. *)
Lemma set_fresh k v d :
  PyDict.get k d = None -> PyDict.set k v d = d ++ [(k, v)].
Proof.
  induction d as [|[k' v'] d IH]; simpl; auto.
  destruct (keqb k k'); [discriminate|].
  intros Hd. now rewrite IH.
Qed.

Lemma contains_false k d : PyDict.contains k d = false -> PyDict.get k d = None.
Proof. unfold PyDict.contains. now destruct (PyDict.get k d). Qed.
End DictFacts.

(** ** [list.remove] *)

Lemma list_remove_In x q r :
  list_remove x q = Some r -> forall y, In y q -> y = x \/ In y r.
Proof.
  revert r. induction q as [|z q IH]; simpl; intros r Hr y Hy; [contradiction|].
  destruct (N.eqb_spec x z) as [->|Hne].
  - injection Hr as <-. destruct Hy; auto.
  - destruct (list_remove x q) as [r'|] eqn:E; [|discriminate].
    injection Hr as <-. destruct Hy as [->|Hy]; [right; now left|].
    destruct (IH _ eq_refl _ Hy); auto. right. now right.
Qed.

Lemma list_remove_present x q : In x q -> exists r, list_remove x q = Some r.
Proof.
  induction q as [|z q IH]; simpl; [contradiction|].
  intros Hx. destruct (N.eqb_spec x z) as [->|Hne]; [eauto|].
  destruct Hx as [->|Hx]; [congruence|].
  destruct (IH Hx) as [r ->]. eauto.
Qed.

Lemma list_remove_Permutation x q r :
  list_remove x q = Some r -> Permutation q (r ++ [x]).
Proof.
  revert r. induction q as [|z q IH]; simpl; intros r Hr; [discriminate|].
  destruct (N.eqb_spec x z) as [->|Hne].
  - injection Hr as <-. apply Permutation_cons_append.
  - destruct (list_remove x q) as [r'|] eqn:E; [|discriminate].
    injection Hr as <-. simpl. constructor. now apply IH.
Qed.

(** ** Validation *)

Lemma validate_conference_slots data message :
  validate_conference data = Ok (true, message) -> 0 < d_available_slots data.
Proof.
  unfold validate_conference.
  repeat match goal with
         | |- context [if ?b then _ else _] => destruct b eqn:?
         | |- context [match ?o with _ => _ end] => destruct o eqn:?
         end; try discriminate.
  intros _. lia.
Qed.

(** ** Well-formedness is invariant *)

Lemma wf_initial : wf initial.
Proof. split; simpl; intros; auto; discriminate. Qed.

Lemma wf_with_users us st : wf st -> wf (with_users us st).
Proof. intros [F1 F2 Q S]. split; simpl; auto. Qed.

Lemma wf_del_booking id st :
  wf st -> wf (with_bookings (PyDict.del id (bookings st)) st).
Proof.
  intros [F1 F2 Q S]. split; simpl; auto.
  intros id' Hid. destruct (PyDict.get id' (PyDict.del id (bookings st))) eqn:E; auto.
  apply get_del_Some in E. rewrite F1 in E; auto.
Qed.

Lemma wf_del_waitlist id st :
  wf st -> wf (with_waitlists (PyDict.del id (waitlists st)) st).
Proof.
  intros [F1 F2 Q S]. split; simpl; auto.
  - intros id' Hid. destruct (PyDict.get id' (PyDict.del id (waitlists st))) eqn:E; auto.
    apply get_del_Some in E. rewrite F2 in E; auto.
  - intros id' e E. apply get_del_Some in E. eauto.
Qed.

(** A booking stored under a newly issued identifier. *)
Lemma wf_issue_booking b st :
  wf st ->
  wf (mkState (conferences st) (users st)
        (PyDict.set (issued st) b (bookings st)) (waitlists st) (N.succ (issued st))).
Proof.
  intros [F1 F2 Q S]. split; simpl; auto.
  - intros id Hid. rewrite get_set_other by lia. apply F1. lia.
  - intros id Hid. apply F2. lia.
Qed.

(** A conference object mutated in place: slots stay non-negative and no
    identifier leaves its queue. *)
Lemma wf_set_conference c conf conf' st :
  wf st ->
  PyDict.get c (conferences st) = Some conf ->
  0 <= available_slots conf' ->
  (forall id, In id (waitlist conf) -> In id (waitlist conf')) ->
  wf (with_conferences (PyDict.set c conf' (conferences st)) st).
Proof.
  intros [F1 F2 Q S] Hc Hslots Hq. split; simpl; auto.
  - intros id e E. destruct (Q _ _ E) as (conf0 & Hconf0 & Hin).
    destruct (String.eqb_spec c (w_Conference e)) as [->|Hne].
    + rewrite get_set_same. exists conf'. split; auto.
      apply Hq. congruence.
    + rewrite get_set_other by auto. eauto.
  - intros c0 conf0. destruct (String.eqb_spec c c0) as [->|Hne].
    + rewrite get_set_same. intros [= <-]. auto.
    + rewrite get_set_other by auto. apply S.
Qed.

Lemma wf_new_conference c conf' st :
  wf st ->
  PyDict.get c (conferences st) = None ->
  0 <= available_slots conf' ->
  wf (with_conferences (PyDict.set c conf' (conferences st)) st).
Proof.
  intros [F1 F2 Q S] Hc Hslots. split; simpl; auto.
  - intros id e E. destruct (Q _ _ E) as (conf0 & Hconf0 & Hin).
    exists conf0. split; auto.
    rewrite get_set_other; auto. congruence.
  - intros c0 conf0. destruct (String.eqb_spec c c0) as [->|Hne].
    + rewrite get_set_same. intros [= <-]. auto.
    + rewrite get_set_other by auto. apply S.
Qed.

(** A waitlist entry stored under a newly issued identifier and appended to
    the queue of its conference. *)
Lemma wf_enqueue c conf user_id now st :
  wf st ->
  PyDict.get c (conferences st) = Some conf ->
  wf (mkState
        (PyDict.set c (set_waitlist (waitlist conf ++ [issued st]) conf) (conferences st))
        (users st) (bookings st)
        (PyDict.set (issued st) (mkWaitlistEntry user_id c now) (waitlists st))
        (N.succ (issued st))).
Proof.
  intros [F1 F2 Q S] Hc. split; simpl.
  - intros id Hid. apply F1. lia.
  - intros id Hid. rewrite get_set_other by lia. apply F2. lia.
  - intros id e. destruct (N.eqb_spec (issued st) id) as [<-|Hne].
    + rewrite get_set_same. intros [= <-]. simpl. rewrite get_set_same.
      eexists. split; eauto. simpl. apply in_or_app. right. now left.
    + rewrite get_set_other by auto. intros E.
      destruct (Q _ _ E) as (conf0 & Hconf0 & Hin).
      destruct (String.eqb_spec c (w_Conference e)) as [->|Hne'].
      * rewrite get_set_same. eexists. split; eauto. simpl.
        apply in_or_app. left. congruence.
      * rewrite get_set_other by auto. eauto.
  - intros c0 conf0. destruct (String.eqb_spec c c0) as [->|Hne].
    + rewrite get_set_same. intros [= <-]. simpl. eauto.
    + rewrite get_set_other by auto. apply S.
Qed.

Lemma wf_add_user data st : wf st -> wf (snd (add_user data st)).
Proof.
  intros W. unfold add_user. destruct (validate_user data) as [is_valid message].
  destruct is_valid; simpl; auto.
  destruct (PyDict.contains _ _); simpl; auto using wf_with_users.
Qed.

Lemma wf_add_conference data st : wf st -> wf (snd (add_conference data st)).
Proof.
  intros W. unfold add_conference.
  destruct (validate_conference data) as [[is_valid message]|e] eqn:V; simpl; auto.
  destruct is_valid; simpl; auto.
  destruct (PyDict.contains _ _) eqn:C; simpl; auto.
  apply wf_new_conference; auto using contains_false.
  simpl. apply validate_conference_slots in V. lia.
Qed.

Lemma wf_book_conference now c u st : wf st -> wf (snd (book_conference now c u st)).
Proof.
  intros W. unfold book_conference.
  destruct (PyDict.get c (conferences st)) as [conf|] eqn:Hc; simpl; auto.
  destruct (PyDict.contains u (users st)); simpl; auto.
  destruct (find_booking u c (bookings st)); simpl; auto.
  destruct (Z.leb_spec (available_slots conf) 0); simpl.
  - exact (wf_enqueue c conf u now st W Hc).
  - apply (wf_set_conference c conf
             (set_available_slots (available_slots conf - 1) conf)
             (mkState (conferences st) (users st) _ (waitlists st) _)); simpl; auto.
    + now apply wf_issue_booking.
    + lia.
Qed.

Lemma wf_confirm_waitlist_booking now id st :
  wf st -> wf (snd (confirm_waitlist_booking now id st)).
Proof.
  intros W. unfold confirm_waitlist_booking.
  destruct (PyDict.get id (waitlists st)) as [e|]; simpl; auto.
  destruct (PyDict.get (w_Conference e) (conferences st)) as [conf|] eqn:Hc; simpl; auto.
  destruct (Z.leb_spec (available_slots conf) 0); simpl; auto.
  destruct (now - w_timestamp e >? hour).
  - destruct (list_remove id (waitlist conf)) as [q|] eqn:R; simpl; auto.
    apply (wf_set_conference _ conf); simpl; auto.
    + now apply (wf_slots st W (w_Conference e)).
    + intros id' Hin. apply in_or_app.
      destruct (list_remove_In _ _ _ R _ Hin) as [->|Hq]; [right; now left|now left].
  - apply (wf_del_waitlist id
             (mkState (PyDict.set (w_Conference e) _ (conferences st)) (users st)
                (PyDict.set (issued st) _ (bookings st)) (waitlists st)
                (N.succ (issued st)))).
    apply (wf_set_conference (w_Conference e) conf
             (set_available_slots (available_slots conf - 1) conf)
             (mkState (conferences st) (users st) _ (waitlists st) _)); simpl; auto.
    + now apply wf_issue_booking.
    + lia.
Qed.

Lemma wf_cancel_booking now id st : wf st -> wf (snd (cancel_booking now id st)).
Proof.
  intros W. unfold cancel_booking.
  destruct (PyDict.get id (bookings st)) as [b|].
  - destruct (PyDict.get (b_Conference b) (conferences st)) as [conf|] eqn:Hc; simpl; auto.
    assert (W1 : wf (with_conferences
                       (PyDict.set (b_Conference b)
                          (set_available_slots (available_slots conf + 1) conf)
                          (conferences st)) st)).
    { apply (wf_set_conference _ conf); simpl; auto.
      pose proof (wf_slots st W _ _ Hc). lia. }
    simpl. destruct (waitlist conf); simpl; auto.
    now apply (wf_del_booking id (with_conferences _ st)).
  - destruct (PyDict.get id (waitlists st)); simpl; auto using wf_del_waitlist.
Qed.

Lemma wf_booking_status id st : wf st -> wf (snd (booking_status id st)).
Proof.
  intros W. unfold booking_status.
  destruct (PyDict.get id (bookings st)); simpl; auto.
  destruct (PyDict.get id (waitlists st)); simpl; auto.
Qed.

Lemma wf_handle now r st : wf st -> wf (snd (handle now r st)).
Proof.
  destruct r; simpl;
    auto using wf_add_user, wf_add_conference, wf_book_conference,
      wf_confirm_waitlist_booking, wf_cancel_booking, wf_booking_status.
Qed.

(** ** The promotion loop *)

(** What one run of the loop leaves behind, whatever the queue holds. *)
Lemma promotion_loop_facts c now queue :
  forall slots st queue' slots' st',
    promotion_loop c now queue slots st = (queue', slots', st') ->
    conferences st' = conferences st
    /\ users st' = users st
    /\ (0 <= slots -> 0 <= slots')
    /\ (issued st <= issued st')%N
    /\ (forall id, (issued st' <= id)%N ->
          PyDict.get id (bookings st') = PyDict.get id (bookings st))
    /\ (forall id e, PyDict.get id (waitlists st') = Some e ->
          PyDict.get id (waitlists st) = Some e)
    /\ (forall id, In id queue -> In id queue' \/ PyDict.get id (waitlists st') = None).
Proof.
  induction queue as [|waitlist_id rest IH]; simpl; intros slots st queue' slots' st' E.
  - injection E as <- <- <-. repeat split; auto; try lia.
  - destruct (Z.gtb_spec slots 0) as [Hpos|Hnpos].
    2:{ injection E as <- <- <-. repeat split; auto; lia. }
    destruct (PyDict.get waitlist_id (waitlists st)) as [e|] eqn:Hw.
    2:{ injection E as <- <- <-. repeat split; auto; try lia.
        intros id [->|Hin]; left; apply in_or_app; [right; now left|now left]. }
    destruct (now - w_timestamp e >? hour).
    2:{ injection E as <- <- <-. repeat split; auto; try lia.
        intros id [->|Hin]; left; apply in_or_app; [right; now left|now left]. }
    apply IH in E. simpl in E.
    destruct E as (Hc & Hu & Hs & Hi & Hb & Hwl & Hq).
    repeat split; auto; try lia.
    + intros id Hid. rewrite Hb by auto. apply get_set_other. lia.
    + intros id e' E'. apply Hwl in E'. now apply get_del_Some in E'.
    + intros id [<-|Hin]; auto.
      right. destruct (PyDict.get waitlist_id (waitlists st')) as [e'|] eqn:E'; auto.
      apply Hwl in E'. now rewrite get_del_same in E'.
Qed.

Lemma wf_process_waitlist c now st st' :
  wf st -> process_waitlist (PyStr c) now st = Ok st' -> wf st'.
Proof.
  intros W. unfold process_waitlist.
  destruct (PyDict.get c (conferences st)) as [conf|] eqn:Hc.
  2:{ intros [= <-]. auto. }
  destruct (promotion_loop c now (waitlist conf) (available_slots conf) st)
    as [[queue slots] st1] eqn:L.
  intros [= <-].
  destruct (promotion_loop_facts _ _ _ _ _ _ _ _ L) as (Hcs & Hu & Hs & Hi & Hb & Hwl & Hq).
  destruct W as [F1 F2 Q S]. split; simpl.
  - intros id Hid. rewrite Hb by auto. apply F1. lia.
  - intros id Hid. destruct (PyDict.get id (waitlists st1)) as [e|] eqn:E; auto.
    apply Hwl in E. rewrite F2 in E; [discriminate|lia].
  - intros id e E. pose proof (Hwl _ _ E) as E0.
    destruct (Q _ _ E0) as (conf0 & Hconf0 & Hin). rewrite Hcs.
    destruct (String.eqb_spec c (w_Conference e)) as [->|Hne].
    + rewrite get_set_same. eexists. split; eauto. simpl.
      assert (conf0 = conf) as -> by congruence.
      destruct (Hq _ Hin) as [|Hnone]; auto. congruence.
    + rewrite get_set_other by auto. eauto.
  - intros c0 conf0. rewrite Hcs. destruct (String.eqb_spec c c0) as [->|Hne].
    + rewrite get_set_same. intros [= <-]. simpl. apply Hs. eauto.
    + rewrite get_set_other by auto. apply S.
Qed.

Lemma wf_step st st' : wf st -> step st st' -> wf st'.
Proof.
  intros W Hstep. inversion Hstep as [now r st0|now c st0 st1 P]; subst.
  - now apply wf_handle.
  - now apply (wf_process_waitlist c now st).
Qed.

Lemma reachable_wf st : reachable st -> wf st.
Proof. induction 1; eauto using wf_initial, wf_step. Qed.

Lemma run_reachable trace : forall st, reachable st -> reachable (run trace st).
Proof.
  induction trace as [|[now r] trace IH]; simpl; intros st R; auto.
  apply IH. eapply reachable_step; eauto. constructor.
Qed.

(** ** Slot counts *)

(** C10: in every state the service can reach, by any sequence of requests
    and promotion passes, the available slots of every conference are at
    least zero. *)
Theorem available_slots_nonnegative st :
  reachable st ->
  forall c conf,
    PyDict.get c (conferences st) = Some conf -> 0 <= available_slots conf.
Proof. intros R. exact (wf_slots st (reachable_wf st R)). Qed.

Lemma available_slots_nonnegative_witness :
  reachable (run double_booking initial)
  /\ slots_of "rocqconf" (run double_booking initial) = Some 0
  /\ 0 <= 0.
Proof.
  split; [exact (run_reachable double_booking initial reachable_initial)|].
  split; [reflexivity|].
  exact (available_slots_nonnegative (run double_booking initial)
           (run_reachable double_booking initial reachable_initial)
           "rocqconf"
           (rocqconf_with 0 [1%N; 2%N])
           eq_refl).
Defined.

(** ** Waitlist confirmation *)

(** C4, as the code has it: confirming a live waitlist entry within the
    hour, while its conference has a free slot, answers 200 with a newly
    issued booking identifier; the conference has one slot less, a booking for
    the entry's user is appended to the bookings, and the entry is gone from
    the waitlist store.  The queue of the conference is not touched: the
    identifier stays in it. *)
Theorem confirmation_accepted st now id e conf :
  reachable st ->
  PyDict.get id (waitlists st) = Some e ->
  PyDict.get (w_Conference e) (conferences st) = Some conf ->
  0 < available_slots conf ->
  now - w_timestamp e <= hour ->
  let booking_id := issued st in
  let st' := snd (confirm_waitlist_booking now id st) in
  fst (confirm_waitlist_booking now id st)
    = Response (JConfirmed booking_id "Booking confirmed from waitlist.") 200
  /\ slots_of (w_Conference e) st' = Some (available_slots conf - 1)
  /\ bookings st'
       = bookings st
         ++ [(booking_id, mkBooking booking_id (w_UserID e) (w_Conference e) now)]
  /\ waitlists st' = PyDict.del id (waitlists st)
  /\ PyDict.get id (waitlists st') = None
  /\ queue_of (w_Conference e) st' = Some (waitlist conf)
  /\ In id (waitlist conf).
Proof.
  intros R Hw Hc Hslots Hintime booking_id st'.
  pose proof (reachable_wf st R) as W.
  destruct (wf_queued st W _ _ Hw) as (conf0 & Hc0 & Hin).
  assert (conf0 = conf) as -> by congruence.
  subst st'. unfold confirm_waitlist_booking. rewrite Hw, Hc.
  destruct (Z.leb_spec (available_slots conf) 0); [lia|].
  destruct (Z.gtb_spec (now - w_timestamp e) hour); [lia|].
  simpl. unfold slots_of, queue_of. simpl. rewrite get_set_same. simpl.
  repeat split; auto.
  - apply set_fresh. apply (wf_fresh_bookings st W). lia.
  - apply get_del_same.
Qed.

Lemma confirmation_accepted_witness :
  let st := run (cancel_scenario 3) initial in
  let st' := snd (confirm_waitlist_booking 10 1%N st) in
  fst (confirm_waitlist_booking 10 1%N st)
    = Response (JConfirmed 2%N "Booking confirmed from waitlist.") 200
  /\ slots_of "rocqconf" st' = Some (1 - 1)
  /\ bookings st' = bookings st ++ [(2%N, mkBooking 2%N "bob" "rocqconf" 10)]
  /\ waitlists st' = PyDict.del 1%N (waitlists st)
  /\ PyDict.get 1%N (waitlists st') = None
  /\ queue_of "rocqconf" st' = Some [1%N]
  /\ In 1%N [1%N].
Proof.
  exact (confirmation_accepted (run (cancel_scenario 3) initial) 10 1%N
           (mkWaitlistEntry "bob" "rocqconf" 2)
           (rocqconf_with 1 [1%N])
           (run_reachable (cancel_scenario 3) initial reachable_initial)
           eq_refl eq_refl eq_refl
           (fun H : (10 - 2 ?= hour) = Gt => ltac:(discriminate H))).
Defined.

(** C4 as stated fails: bob's entry 1 is confirmed in time and removed from
    the waitlist store, yet identifier 1 is still in the queue of the
    conference afterwards. *)
Lemma confirmation_keeps_queue :
  let st := run (cancel_scenario 3) initial in
  PyDict.get 1%N (waitlists st) = Some (mkWaitlistEntry "bob" "rocqconf" 2)
  /\ slots_of "rocqconf" st = Some 1
  /\ queue_of "rocqconf" st = Some [1%N]
  /\ fst (handle 10 (ConfirmWaitlistBooking 1%N) st)
       = Response (JConfirmed 2%N "Booking confirmed from waitlist.") 200
  /\ PyDict.get 1%N (waitlists (snd (handle 10 (ConfirmWaitlistBooking 1%N) st))) = None
  /\ queue_of "rocqconf" (snd (handle 10 (ConfirmWaitlistBooking 1%N) st)) = Some [1%N]
  /\ ~ (forall q, queue_of "rocqconf" (snd (handle 10 (ConfirmWaitlistBooking 1%N) st))
                  = Some q -> ~ In 1%N q).
Proof.
  repeat split; try reflexivity.
  intros H. apply (H [1%N]); [reflexivity|now left].
Qed.

(** ** Error answers *)

(** C6 as stated fails: bob's late confirmation is answered with the
    confirmation-expired error, and the queue of the conference, which was
    bob then carol, is carol then bob afterwards. *)
Lemma expired_confirmation_mutates :
  let st := run two_waiting initial in
  let answer := handle (2 + 2 * hour) (ConfirmWaitlistBooking 1%N) st in
  fst answer = ConfirmationExpired
  /\ is_error_value (fst answer) = true
  /\ queue_of "rocqconf" st = Some [1%N; 2%N]
  /\ queue_of "rocqconf" (snd answer) = Some [2%N; 1%N]
  /\ snd answer <> st.
Proof.
  repeat split; try reflexivity.
  intros H. apply (f_equal (queue_of "rocqconf")) in H.
  vm_compute in H. discriminate H.
Qed.

(** ** Automatic promotion *)

Lemma NoDup_app_disjoint (l1 l2 : list uuid) x :
  NoDup (l1 ++ l2) -> In x l1 -> In x l2 -> False.
Proof.
  induction l1 as [|a l1 IH]; simpl; intros Hnd H1 H2; [contradiction|].
  inversion Hnd as [|? ? Hnotin Hnd']; subst.
  destruct H1 as [->|H1]; auto.
  apply Hnotin. apply in_or_app. now right.
Qed.

(** The pass on the mixed queue: carol (older than an hour) is promoted to
    booking 4, dave (younger) goes back to the tail and ends the pass, and
    bob, older than an hour but behind dave, still waits although two slots
    are left. *)
Example mixed_queue_pass :
  exists st',
    process_waitlist (PyStr "rocqconf") (hour + 5) (run mixed_queue initial) = Ok st'
    /\ queue_of "rocqconf" st' = Some [1%N; 3%N]
    /\ slots_of "rocqconf" st' = Some 2
    /\ bookings_of "carol" "rocqconf" st' = [4%N]
    /\ PyDict.get 2%N (waitlists st') = None
    /\ PyDict.get 1%N (waitlists st') = Some (mkWaitlistEntry "bob" "rocqconf" 2).
Proof.
  vm_compute. eexists. split; [reflexivity|]. vm_compute. auto 10.
Qed.

(** C9, as the code has it: cancelling a waitlist entry deletes it from the
    waitlist store and leaves every queue as it was, so its identifier stays
    queued as an orphan.  The promotion loop does not skip an orphan: when it
    pops one it puts it back at the tail and ends the pass, so nothing behind
    it is promoted in that pass. *)
Theorem orphan_requeued st now id e :
  PyDict.get id (bookings st) = None ->
  PyDict.get id (waitlists st) = Some e ->
  let st1 := with_waitlists (PyDict.del id (waitlists st)) st in
  cancel_booking now id st
    = (Response (JMessage "Removed from waitlist successfully.") 200, st1)
  /\ PyDict.get id (waitlists st1) = None
  /\ conferences st1 = conferences st
  /\ forall now' c conf rest,
       PyDict.get c (conferences st1) = Some conf ->
       waitlist conf = id :: rest ->
       0 < available_slots conf ->
       process_waitlist (PyStr c) now' st1
       = Ok (with_conferences
               (PyDict.set c (set_waitlist (rest ++ [id]) conf) (conferences st1)) st1).
Proof.
  intros Hb Hw st1. repeat split.
  - unfold cancel_booking. now rewrite Hb, Hw.
  - apply get_del_same.
  - intros now' c conf rest Hc Hq Hslots.
    unfold process_waitlist. rewrite Hc, Hq. simpl.
    destruct (Z.gtb_spec (available_slots conf) 0); [|lia].
    rewrite get_del_same. destruct conf; reflexivity.
Qed.

Lemma orphan_requeued_witness :
  let st := run two_waiting initial in
  let st1 := with_waitlists (PyDict.del 1%N (waitlists st)) st in
  cancel_booking 5 1%N st
    = (Response (JMessage "Removed from waitlist successfully.") 200, st1)
  /\ process_waitlist (PyStr "rocqconf") (3 + 2 * hour) st1
     = Ok (with_conferences
             (PyDict.set "rocqconf" (set_waitlist [2%N; 1%N] (rocqconf_with 1 [1%N; 2%N]))
                (conferences st1)) st1).
Proof.
  destruct (orphan_requeued (run two_waiting initial) 5 1%N
              (mkWaitlistEntry "bob" "rocqconf" 2) eq_refl eq_refl)
    as (Hcancel & _ & _ & Hpass).
  split; [exact Hcancel|].
  exact (Hpass (3 + 2 * hour) "rocqconf" (rocqconf_with 1 [1%N; 2%N]) [2%N]
           eq_refl eq_refl eq_refl).
Defined.

(** C9 as stated fails: bob has left the waitlist, so identifier 1 heads the
    queue as an orphan; carol's entry 2 behind it is older than an hour and a
    slot is free, yet the pass promotes nobody: it only moves the orphan to
    the tail. *)
Lemma orphan_blocks_promotion :
  let st := run orphan_scenario initial in
  let now := 3 + 2 * hour in
  queue_of "rocqconf" st = Some [1%N; 2%N]
  /\ PyDict.get 1%N (waitlists st) = None
  /\ PyDict.get 2%N (waitlists st) = Some (mkWaitlistEntry "carol" "rocqconf" 3)
  /\ hour < now - 3
  /\ slots_of "rocqconf" st = Some 1
  /\ exists st',
       process_waitlist (PyStr "rocqconf") now st = Ok st'
       /\ queue_of "rocqconf" st' = Some [2%N; 1%N]
       /\ PyDict.get 2%N (waitlists st') = Some (mkWaitlistEntry "carol" "rocqconf" 3)
       /\ bookings_of "carol" "rocqconf" st' = []
       /\ bookings st' = bookings st
       /\ slots_of "rocqconf" st' = Some 1.
Proof.
  vm_compute. repeat split.
  eexists. split; [reflexivity|]. vm_compute. auto 10.
Qed.

(** ** Cancellation *)

(** C2: what [cancel_booking] does on an active booking whose conference has
    a non-empty waitlist.  It adds one to the slot count and calls
    [process_waitlist] on the conference dictionary instead of the conference
    name; the lookup raises [TypeError], so the request ends there: the booking
    is not deleted and no promotion takes place. *)
Theorem cancel_with_waitlist_raises st now id b conf :
  PyDict.get id (bookings st) = Some b ->
  PyDict.get (b_Conference b) (conferences st) = Some conf ->
  waitlist conf <> [] ->
  cancel_booking now id st
  = (Raised (TypeError "unhashable type: 'dict'"),
     with_conferences
       (PyDict.set (b_Conference b)
          (set_available_slots (available_slots conf + 1) conf) (conferences st)) st).
Proof.
  intros Hb Hc Hq. unfold cancel_booking. rewrite Hb, Hc. simpl.
  destruct (waitlist conf); [congruence|reflexivity].
Qed.

(** The capacity-1 scenario with bob eligible for promotion (enqueued two
    hours before the cancellation): alice keeps her booking, bob gets none and
    stays on the waitlist, and one slot is shown as available. *)
Lemma cancel_with_waitlist_raises_witness :
  let st := run one_waiting initial in
  let now := 2 + 2 * hour in
  cancel_booking now 0%N st
  = (Raised (TypeError "unhashable type: 'dict'"),
     with_conferences
       (PyDict.set "rocqconf" (rocqconf_with (0 + 1) [1%N]) (conferences st)) st)
  /\ hour < now - 2
  /\ PyDict.get 0%N (bookings (snd (cancel_booking now 0%N st)))
     = Some (mkBooking 0%N "alice" "rocqconf" 1)
  /\ bookings_of "bob" "rocqconf" (snd (cancel_booking now 0%N st)) = []
  /\ PyDict.get 1%N (waitlists (snd (cancel_booking now 0%N st)))
     = Some (mkWaitlistEntry "bob" "rocqconf" 2)
  /\ slots_of "rocqconf" (snd (cancel_booking now 0%N st)) = Some 1.
Proof.
  split.
  - refine (cancel_with_waitlist_raises (run one_waiting initial) (2 + 2 * hour) 0%N
              (mkBooking 0%N "alice" "rocqconf" 1) (rocqconf_with 0 [1%N])
              eq_refl eq_refl _).
    vm_compute. intros H. discriminate H.
  - vm_compute. auto 10.
Defined.

(** C1: conservation is lost on the first cancellation that meets a
    non-empty waitlist.  In the capacity-1 scenario the sum of free slots and
    active bookings is 1 before alice cancels; her cancellation raises after
    the slot was added and before the booking is deleted, and the sum is 2. *)
Theorem conservation_broken_by_cancel :
  d_available_slots rocqconf_data = 1
  /\ slots_of "rocqconf" (run one_waiting initial) = Some 0
  /\ List.length (active_bookings "rocqconf" (run one_waiting initial)) = 1%nat
  /\ fst (handle 3 (CancelBooking 0%N) (run one_waiting initial))
     = Raised (TypeError "unhashable type: 'dict'")
  /\ slots_of "rocqconf" (run (cancel_scenario 3) initial) = Some 1
  /\ List.length (active_bookings "rocqconf" (run (cancel_scenario 3) initial)) = 1%nat.
Proof. vm_compute. auto 10. Qed.

(** C3: for an identifier that is neither a booking nor a waitlist entry,
    [cancel_booking] reaches the end of its body without a [return]: it hands
    back no error value and leaves the dictionaries as they are. *)
Theorem cancel_unknown_returns_none st now id :
  PyDict.get id (bookings st) = None ->
  PyDict.get id (waitlists st) = None ->
  cancel_booking now id st = (ReturnedNone, st).
Proof. intros Hb Hw. unfold cancel_booking. now rewrite Hb, Hw. Qed.

(** Cancelling twice: the first cancellation of alice's booking succeeds,
    the second hands back nothing. *)
Lemma cancel_unknown_returns_none_witness :
  fst (handle 2 (CancelBooking 0%N)
         (run (setup ++ [(1, BookConference "rocqconf" "alice")]) initial))
  = Response (JMessage "Booking canceled successfully.") 200
  /\ cancel_booking 3 0%N (run cancelled_once initial)
     = (ReturnedNone, run cancelled_once initial).
Proof.
  split; [vm_compute; reflexivity|].
  exact (cancel_unknown_returns_none (run cancelled_once initial) 3 0%N eq_refl eq_refl).
Defined.

(** ** Duplicate bookings *)

(** [book_conference] refuses a pair that already has a booking and creates
    nothing. *)
Lemma duplicate_booking_rejected st now c u conf b :
  PyDict.get c (conferences st) = Some conf ->
  PyDict.contains u (users st) = true ->
  find_booking u c (bookings st) = Some b ->
  book_conference now c u st
  = (Response (JErrorBooking "User already has a booking for this conference."
                 (booking_id b)) 400, st).
Proof.
  intros Hc Hu Hb. unfold book_conference. now rewrite Hc, Hu, Hb.
Qed.

(** C8: two active bookings for one user and one conference.  bob is
    waitlisted twice for the one-slot conference (the duplicate scan only
    looks at bookings), alice's cancellations free two slots, and
    [confirm_waitlist_booking], which has no duplicate scan, turns both
    entries into bookings 3 and 4 for bob. *)
Theorem double_booking_by_confirmation :
  outcomes [(6, ConfirmWaitlistBooking 1%N); (7, ConfirmWaitlistBooking 2%N)]
    (run waiting_twice initial)
  = [Response (JConfirmed 3%N "Booking confirmed from waitlist.") 200;
     Response (JConfirmed 4%N "Booking confirmed from waitlist.") 200]
  /\ bookings_of "bob" "rocqconf" (run double_booking initial) = [3%N; 4%N].
Proof. vm_compute. auto. Qed.


(** * Further properties of the code *)

(** ** Validators and catalogues *)

Lemma existsb_negb_false {A} (p : A -> bool) l :
  existsb (fun x => negb (p x)) l = false <-> Forall (fun x => p x = true) l.
Proof.
  induction l as [|a l IH]; simpl.
  - split; auto.
  - rewrite orb_false_iff, negb_false_iff, IH. split.
    + intros [Ha Hl]. now constructor.
    + intros Hf. inversion Hf; subst. auto.
Qed.

(** X3: A user whose topics hold a blank item, such as a missing "Interested
    Topics" field (read as the empty string) or a trailing comma, is turned
    away with a 400 and nothing is stored. *)
Theorem blank_topic_rejected data st :
  (exists topic, In topic (split_comma (d_Interested_Topics data))
                 /\ remove_spaces (strip topic) = "") ->
  exists message, add_user data st = (Response (JError message) 400, st).
Proof.
  intros (topic & Hin & Hblank). unfold add_user, validate_user.
  destruct (isalnum (d_UserID data)); cbn [negb]; [|eauto].
  destruct (50 <? _); cbn [orb negb]; [eauto|].
  destruct (existsb _ _) eqn:E; cbn [negb]; [eauto|].
  exfalso. apply (existsb_negb_false (fun t => isalnum (remove_spaces (strip t)))) in E.
  rewrite Forall_forall in E. specialize (E _ Hin). rewrite Hblank in E. discriminate E.
Qed.

Lemma blank_topic_rejected_witness :
  (exists message,
     add_user (mkUserData "erin" "") (run setup initial)
     = (Response (JError message) 400, run setup initial))
  /\ (exists message,
        add_user (mkUserData "erin" "ai,") (run setup initial)
        = (Response (JError message) 400, run setup initial)).
Proof.
  split.
  - apply (blank_topic_rejected (mkUserData "erin" "") (run setup initial)).
    exists "". split; [now left|reflexivity].
  - apply (blank_topic_rejected (mkUserData "erin" "ai,") (run setup initial)).
    exists "". split; [right; now left|reflexivity].
Defined.





(** A body whose timestamps are one aware and one naive makes the validator
    raise, whatever else it holds that is well-formed. *)
Example mixed_timestamps_raise :
  add_conference
    (mkConferenceData "types" "room 2" "logic" (Some (Aware 0)) (Some (Naive hour)) 40)
    (run setup initial)
  = (Raised (TypeError "can't compare offset-naive and offset-aware datetimes"),
     run setup initial).
Proof. reflexivity. Qed.

(** ** More on dictionaries *)

Section DictKeys.
Context {K V : Type} `{Key K}.
Implicit Types (k : K) (v : V) (d : PyDict.dict K V).

Lemma key_dec k k' : {k = k'} + {k <> k'}.
Proof. destruct (keqb_spec k k'); auto. Qed.

Lemma get_set_eq k k' v d : k = k' -> PyDict.get k' (PyDict.set k v d) = Some v.
Proof. intros <-. apply get_set_same. Qed.

Lemma get_In_keys k v d : PyDict.get k d = Some v -> In k (map fst d).
Proof.
  induction d as [|[k' v'] d IH]; simpl; [discriminate|].
  destruct (keqb_spec k k') as [->|Hne]; auto.
Qed.

Lemma get_notin_keys k d : ~ In k (map fst d) -> PyDict.get k d = None.
Proof.
  intros Hk. destruct (PyDict.get k d) eqn:E; auto.
  apply get_In_keys in E. contradiction.
Qed.

Lemma get_None_notin k d : PyDict.get k d = None -> ~ In k (map fst d).
Proof.
  induction d as [|[k' v'] d IH]; simpl; auto.
  destruct (keqb_spec k k') as [->|Hne]; [discriminate|].
  intros E [Hk|Hk]; [congruence|]. now apply IH.
Qed.

Lemma get_In k v d : PyDict.get k d = Some v -> In (k, v) d.
Proof.
  induction d as [|[k' v'] d IH]; simpl; [discriminate|].
  destruct (keqb_spec k k') as [->|Hne]; auto.
  intros [= ->]. now left.
Qed.

Lemma In_get k v d : NoDup (map fst d) -> In (k, v) d -> PyDict.get k d = Some v.
Proof.
  induction d as [|[k' v'] d IH]; simpl; [contradiction|].
  intros Hnd [[= -> ->]|Hin].
  - now rewrite keqb_refl.
  - inversion Hnd as [|? ? Hnotin Hnd']; subst.
    destruct (keqb_spec k k') as [->|Hne]; auto.
    exfalso. apply Hnotin. now apply (in_map fst) in Hin.
Qed.

Lemma del_absent k d : PyDict.get k d = None -> PyDict.del k d = d.
Proof.
  induction d as [|[k' v'] d IH]; simpl; auto.
  destruct (keqb k k'); [discriminate|]. intros E. now rewrite IH.
Qed.

Lemma del_app k d d' : PyDict.del k (d ++ d') = PyDict.del k d ++ PyDict.del k d'.
Proof.
  induction d as [|[k' v'] d IH]; simpl; auto.
  destruct (keqb k k'); auto. now rewrite IH.
Qed.

(** Deleting a key that was just added to a dictionary without it. *)
Lemma del_set_fresh k v d :
  PyDict.get k d = None -> PyDict.del k (PyDict.set k v d) = d.
Proof.
  intros E. rewrite set_fresh, del_app, del_absent by auto.
  simpl. rewrite keqb_refl. apply app_nil_r.
Qed.

Lemma keys_del_incl k k' d : In k' (map fst (PyDict.del k d)) -> In k' (map fst d).
Proof.
  induction d as [|[k0 v0] d IH]; simpl; auto.
  destruct (keqb k k0); simpl; tauto.
Qed.

Lemma keys_del_NoDup k d : NoDup (map fst d) -> NoDup (map fst (PyDict.del k d)).
Proof.
  induction d as [|[k0 v0] d IH]; simpl; auto.
  intros Hnd. inversion Hnd as [|? ? Hnotin Hnd']; subst.
  destruct (keqb k k0); simpl; auto.
  constructor; auto. intros Hin. apply Hnotin. eapply keys_del_incl; eauto.
Qed.

Lemma keys_set_fresh_NoDup k v d :
  PyDict.get k d = None -> NoDup (map fst d) -> NoDup (map fst (PyDict.set k v d)).
Proof.
  intros E Hnd. rewrite set_fresh, map_app by auto. simpl.
  apply (Permutation_NoDup (Permutation_cons_append (map fst d) k)).
  constructor; auto. now apply get_None_notin.
Qed.

(** Writing back the value a key already has changes nothing. *)
Lemma set_same k v d : PyDict.get k d = Some v -> PyDict.set k v d = d.
Proof.
  induction d as [|[k' v'] d IH]; simpl; [discriminate|].
  destruct (keqb_spec k k') as [->|Hne].
  - now intros [= ->].
  - intros E. now rewrite IH.
Qed.

(** Two writes to one key: the second wins. *)
Lemma set_set k v v' d :
  PyDict.set k v' (PyDict.set k v d) = PyDict.set k v' d.
Proof.
  induction d as [|[k0 v0] d IH]; simpl.
  - now rewrite keqb_refl.
  - destruct (keqb_spec k k0) as [->|Hne]; simpl.
    + now rewrite keqb_refl.
    + rewrite (keqb_neq _ _ Hne). now rewrite IH.
Qed.


Lemma get_contains k v d : PyDict.get k d = Some v -> PyDict.contains k d = true.
Proof. unfold PyDict.contains. now intros ->. Qed.

Lemma contains_set k k' v d :
  PyDict.contains k d = true -> PyDict.contains k (PyDict.set k' v d) = true.
Proof.
  unfold PyDict.contains. destruct (key_dec k' k) as [->|Hne].
  - now rewrite get_set_same.
  - now rewrite get_set_other.
Qed.

Lemma contains_set_same k v d : PyDict.contains k (PyDict.set k v d) = true.
Proof. unfold PyDict.contains. now rewrite get_set_same. Qed.
End DictKeys.

(** Case analysis on a lookup in a dictionary that was just written. *)
Ltac case_get :=
  match goal with
  | H : context [PyDict.get ?k (PyDict.set ?k' _ _)] |- _ =>
      let E := fresh "Ekey" in
      destruct (key_dec k' k) as [E|E];
      [rewrite (get_set_eq _ _ _ _ E) in H | rewrite (get_set_other _ _ _ _ E) in H]
  | |- context [PyDict.get ?k (PyDict.set ?k' _ _)] =>
      let E := fresh "Ekey" in
      destruct (key_dec k' k) as [E|E];
      [rewrite (get_set_eq _ _ _ _ E) | rewrite (get_set_other _ _ _ _ E)]
  end.

Ltac case_get_in H :=
  match type of H with
  | context [PyDict.get ?k (PyDict.set ?k' _ _)] =>
      let E := fresh "Ekey" in
      destruct (key_dec k' k) as [E|E];
      [rewrite (get_set_eq _ _ _ _ E) in H | rewrite (get_set_other _ _ _ _ E) in H]
  end.

(** ** Consistency is invariant *)

Lemma consistent_initial : consistent initial.
Proof.
  split; simpl; intros; try discriminate; try contradiction. constructor.
Qed.

(** A first registration of a user. *)
Lemma consistent_new_user u x st :
  consistent st -> UserID x = u ->
  PyDict.get u (users st) = None ->
  consistent (with_users (PyDict.set u x (users st)) st).
Proof.
  intros [Hbk Hbc Hbu Hwu Hck Huk Hdis Hkeys Hqi Hqu Hqd] Hx Hu. split; simpl; eauto using contains_set.
  intros u' x' E. case_get; [congruence|eauto].
Qed.

(** A first registration of a conference, with an empty queue. *)
Lemma consistent_new_conference c conf' st :
  consistent st -> name conf' = c -> waitlist conf' = [] ->
  PyDict.get c (conferences st) = None ->
  consistent (with_conferences (PyDict.set c conf' (conferences st)) st).
Proof.
  intros [Hbk Hbc Hbu Hwu Hck Huk Hdis Hkeys Hqi Hqu Hqd] Hname Hq Hc. split; simpl; eauto using contains_set.
  - intros c0 conf0 E. case_get; [congruence|eauto].
  - intros c0 conf0 id E. case_get; [|eauto].
    injection E as <-. rewrite Hq. contradiction.
  - intros c0 conf0 E. case_get; [|eauto].
    injection E as <-. rewrite Hq. constructor.
  - intros c1 c2 conf1 conf2 id Hne E1 E2.
    case_get_in E1.
    + injection E1 as <-. rewrite Hq. contradiction.
    + case_get_in E2; [|eauto].
      injection E2 as <-. rewrite Hq. auto.
Qed.

(** A conference object mutated in place: same name, and a queue that is a
    rearrangement of part of the old one. *)
Lemma consistent_set_conference c conf conf' st :
  consistent st ->
  PyDict.get c (conferences st) = Some conf ->
  name conf' = name conf ->
  (forall id, In id (waitlist conf') -> In id (waitlist conf)) ->
  NoDup (waitlist conf') ->
  consistent (with_conferences (PyDict.set c conf' (conferences st)) st).
Proof.
  intros [Hbk Hbc Hbu Hwu Hck Huk Hdis Hkeys Hqi Hqu Hqd] Hc Hname Hsub Hnd. split; simpl; eauto using contains_set.
  - intros c0 conf0 E. case_get; [|eauto].
    injection E as <-. subst. rewrite Hname. eauto.
  - intros c0 conf0 id E. case_get; [|eauto].
    injection E as <-. subst. eauto.
  - intros c0 conf0 E. case_get; [|eauto]. now injection E as <-.
  - intros c1 c2 conf1 conf2 id Hne E1 E2.
    case_get_in E1; case_get_in E2; subst.
    + congruence.
    + injection E1 as <-. intros Hin. apply Hsub in Hin. eauto.
    + injection E2 as <-. intros Hin Hin'. apply Hsub in Hin'.
      eapply (Hqd c1 c2); eauto.
    + eauto.
Qed.

(** A booking stored under a newly issued identifier. *)
Lemma consistent_issue_booking b st :
  wf st -> consistent st ->
  booking_id b = issued st ->
  PyDict.contains (b_Conference b) (conferences st) = true ->
  PyDict.contains (b_UserID b) (users st) = true ->
  consistent (mkState (conferences st) (users st)
                (PyDict.set (issued st) b (bookings st)) (waitlists st)
                (N.succ (issued st))).
Proof.
  intros W [Hbk Hbc Hbu Hwu Hck Huk Hdis Hkeys Hqi Hqu Hqd] Hid Hc Hu.
  pose proof (wf_fresh_bookings st W (issued st) (N.le_refl _)) as Fb.
  pose proof (wf_fresh_waitlists st W (issued st) (N.le_refl _)) as Fw.
  split; simpl; eauto.
  - intros id b' E. case_get; [congruence|eauto].
  - intros id b' E. case_get; [congruence|eauto].
  - intros id b' E. case_get; [congruence|eauto].
  - intros id b' E. case_get; [now rewrite <- Ekey|eauto].
  - now apply keys_set_fresh_NoDup.
  - intros c conf id E Hin. apply N.lt_lt_succ_r. eauto.
Qed.

Lemma consistent_del_booking id st :
  consistent st -> consistent (with_bookings (PyDict.del id (bookings st)) st).
Proof.
  intros [Hbk Hbc Hbu Hwu Hck Huk Hdis Hkeys Hqi Hqu Hqd]. split; simpl; eauto using get_del_Some, keys_del_NoDup.
Qed.

Lemma consistent_del_waitlist id st :
  consistent st -> consistent (with_waitlists (PyDict.del id (waitlists st)) st).
Proof.
  intros [Hbk Hbc Hbu Hwu Hck Huk Hdis Hkeys Hqi Hqu Hqd]. split; simpl; eauto using get_del_Some.
  intros id' b E. destruct (PyDict.get id' (PyDict.del id (waitlists st))) eqn:E'; auto.
  apply get_del_Some in E'. erewrite Hdis in E'; eauto.
Qed.

(** A waitlist entry stored under a newly issued identifier and appended to
    the queue of its conference. *)
Lemma consistent_enqueue c conf user_id now st :
  wf st -> consistent st ->
  PyDict.get c (conferences st) = Some conf ->
  PyDict.contains user_id (users st) = true ->
  consistent
    (mkState
       (PyDict.set c (set_waitlist (waitlist conf ++ [issued st]) conf) (conferences st))
       (users st) (bookings st)
       (PyDict.set (issued st) (mkWaitlistEntry user_id c now) (waitlists st))
       (N.succ (issued st))).
Proof.
  intros W [Hbk Hbc Hbu Hwu Hck Huk Hdis Hkeys Hqi Hqu Hqd] Hc Hu.
  pose proof (wf_fresh_bookings st W (issued st) (N.le_refl _)) as Fb.
  split; simpl; eauto using contains_set.
  - intros id e E. case_get; [|eauto]. injection E as <-. auto.
  - intros c0 conf0 E. case_get; [|eauto]. injection E as <-. subst. simpl. eauto.
  - intros id b E. case_get; [|eauto].
    exfalso. rewrite <- Ekey in E. pose proof (eq_trans (eq_sym E) Fb). discriminate.
  - intros c0 conf0 id E Hin. case_get_in E.
    + injection E as <-. simpl in Hin. apply in_app_or in Hin.
      destruct Hin as [Hin|[<-|[]]]; [|apply N.lt_succ_diag_r].
      apply N.lt_lt_succ_r. eauto.
    + apply N.lt_lt_succ_r. eauto.
  - intros c0 conf0 E. case_get; [|eauto]. injection E as <-. simpl.
    apply (Permutation_NoDup (Permutation_cons_append (waitlist conf) (issued st))).
    constructor; eauto. intros Hin.
    apply (N.lt_irrefl (issued st)). eauto.
  - intros c1 c2 conf1 conf2 id Hne E1 E2.
    case_get_in E1; case_get_in E2; subst.
    + congruence.
    + injection E1 as <-. simpl. intros Hin Hin'. apply in_app_or in Hin.
      destruct Hin as [Hin|[<-|[]]].
      * eapply (Hqd c1 c2); eauto.
      * apply (N.lt_irrefl (issued st)). eauto.
    + injection E2 as <-. simpl. intros Hin Hin'. apply in_app_or in Hin'.
      destruct Hin' as [Hin'|[<-|[]]].
      * eapply (Hqd c1 c2); eauto.
      * apply (N.lt_irrefl (issued st)). eauto.
    + eauto.
Qed.

Lemma list_remove_incl x q r :
  list_remove x q = Some r -> forall y, In y (r ++ [x]) -> In y q.
Proof.
  intros Hr y Hy. apply (Permutation_in y (Permutation_sym (list_remove_Permutation _ _ _ Hr))).
  exact Hy.
Qed.

Lemma consistent_add_user data st : consistent st -> consistent (snd (add_user data st)).
Proof.
  intros C. unfold add_user. destruct (validate_user data) as [[] message]; simpl; auto.
  destruct (PyDict.contains _ _) eqn:E; simpl; auto.
  apply consistent_new_user; auto using contains_false.
Qed.

Lemma consistent_add_conference data st :
  consistent st -> consistent (snd (add_conference data st)).
Proof.
  intros C. unfold add_conference.
  destruct (validate_conference data) as [[[] message]|e]; simpl; auto.
  destruct (PyDict.contains _ _) eqn:E; simpl; auto.
  apply consistent_new_conference; auto using contains_false.
Qed.

Lemma consistent_book_conference now c u st :
  wf st -> consistent st -> consistent (snd (book_conference now c u st)).
Proof.
  intros W C. unfold book_conference.
  destruct (PyDict.get c (conferences st)) as [conf|] eqn:Hc; simpl; auto.
  destruct (PyDict.contains u (users st)) eqn:Hu; simpl; auto.
  destruct (find_booking u c (bookings st)); simpl; auto.
  destruct (available_slots conf <=? 0); simpl.
  - exact (consistent_enqueue c conf u now st W C Hc Hu).
  - assert (C2 : consistent
                   (mkState (conferences st) (users st)
                      (PyDict.set (issued st) (mkBooking (issued st) u c now) (bookings st))
                      (waitlists st) (N.succ (issued st)))).
    { apply consistent_issue_booking; simpl; eauto using get_contains. }
    apply (consistent_set_conference c conf _ _ C2); simpl; auto.
    exact (ok_queue_unique st C c conf Hc).
Qed.

Lemma consistent_confirm_waitlist_booking now id st :
  wf st -> consistent st -> consistent (snd (confirm_waitlist_booking now id st)).
Proof.
  intros W C. unfold confirm_waitlist_booking.
  destruct (PyDict.get id (waitlists st)) as [e|] eqn:Hw; simpl; auto.
  destruct (PyDict.get (w_Conference e) (conferences st)) as [conf|] eqn:Hc; simpl; auto.
  destruct (available_slots conf <=? 0); simpl; auto.
  destruct (now - w_timestamp e >? hour).
  - destruct (list_remove id (waitlist conf)) as [q|] eqn:R; simpl; auto.
    apply (consistent_set_conference _ conf); simpl; auto.
    + exact (list_remove_incl _ _ _ R).
    + apply (Permutation_NoDup (list_remove_Permutation _ _ _ R)).
      exact (ok_queue_unique st C _ conf Hc).
  - assert (C2 : consistent
                   (mkState (conferences st) (users st)
                      (PyDict.set (issued st)
                         (mkBooking (issued st) (w_UserID e) (w_Conference e) now)
                         (bookings st))
                      (waitlists st) (N.succ (issued st)))).
    { apply consistent_issue_booking; simpl; eauto using get_contains.
      exact (ok_waiting_user st C id e Hw). }
    apply (consistent_del_waitlist id
             (mkState (PyDict.set (w_Conference e) _ (conferences st)) (users st)
                (PyDict.set (issued st) _ (bookings st)) (waitlists st)
                (N.succ (issued st)))).
    apply (consistent_set_conference (w_Conference e) conf _ _ C2); simpl; auto.
    exact (ok_queue_unique st C _ conf Hc).
Qed.

Lemma consistent_cancel_booking now id st :
  consistent st -> consistent (snd (cancel_booking now id st)).
Proof.
  intros C. unfold cancel_booking.
  destruct (PyDict.get id (bookings st)) as [b|].
  - destruct (PyDict.get (b_Conference b) (conferences st)) as [conf|] eqn:Hc; simpl; auto.
    assert (C1 : consistent
                   (with_conferences
                      (PyDict.set (b_Conference b)
                         (set_available_slots (available_slots conf + 1) conf)
                         (conferences st)) st)).
    { apply (consistent_set_conference _ conf); simpl; auto.
      exact (ok_queue_unique st C _ conf Hc). }
    destruct (waitlist conf); simpl; auto.
    now apply (consistent_del_booking id (with_conferences _ st)).
  - destruct (PyDict.get id (waitlists st)); simpl; auto using consistent_del_waitlist.
Qed.

Lemma consistent_booking_status id st :
  consistent st -> consistent (snd (booking_status id st)).
Proof.
  intros C. unfold booking_status.
  destruct (PyDict.get id (bookings st)); simpl; auto.
  destruct (PyDict.get id (waitlists st)); simpl; auto.
Qed.

Lemma consistent_handle now r st :
  wf st -> consistent st -> consistent (snd (handle now r st)).
Proof.
  destruct r; simpl;
    auto using consistent_add_user, consistent_add_conference,
      consistent_book_conference, consistent_confirm_waitlist_booking,
      consistent_cancel_booking, consistent_booking_status.
Qed.

(** The loop keeps both invariants, and the queue it leaves is a
    rearrangement of part of the queue it found. *)
Lemma promotion_loop_consistent c now queue :
  forall slots st queue' slots' st',
    promotion_loop c now queue slots st = (queue', slots', st') ->
    wf st -> consistent st ->
    PyDict.contains c (conferences st) = true ->
    wf st' /\ consistent st'
    /\ (forall id, In id queue' -> In id queue)
    /\ (NoDup queue -> NoDup queue').
Proof.
  induction queue as [|head rest IH]; simpl; intros slots st queue' slots' st' E W C Hc.
  - injection E as <- <- <-. auto.
  - assert (Hrequeue : (forall id, In id (rest ++ [head]) -> In id (head :: rest))
                       /\ (NoDup (head :: rest) -> NoDup (rest ++ [head]))).
    { split.
      - intros id Hin. apply in_app_or in Hin. simpl. destruct Hin as [|[|[]]]; auto.
      - apply Permutation_NoDup, Permutation_cons_append. }
    destruct Hrequeue as [Hr1 Hr2].
    destruct (slots >? 0).
    2:{ injection E as <- <- <-. auto. }
    destruct (PyDict.get head (waitlists st)) as [e|] eqn:Hw.
    2:{ injection E as <- <- <-. split; [|split; [|split]]; auto. }
    destruct (now - w_timestamp e >? hour).
    2:{ injection E as <- <- <-. split; [|split; [|split]]; auto. }
    apply IH in E; simpl; auto.
    + destruct E as (W' & C' & Hin & Hnd). split; [exact W'|split; [exact C'|split]].
      * intros id Hid. right. auto.
      * intros Hnd0. inversion Hnd0; auto.
    + apply (wf_del_waitlist head
               (mkState (conferences st) (users st) _ (waitlists st) _)).
      now apply wf_issue_booking.
    + apply (consistent_del_waitlist head
               (mkState (conferences st) (users st) _ (waitlists st) _)).
      apply consistent_issue_booking; simpl; auto.
      exact (ok_waiting_user st C head e Hw).
Qed.

Lemma consistent_process_waitlist c now st st' :
  wf st -> consistent st ->
  process_waitlist (PyStr c) now st = Ok st' -> consistent st'.
Proof.
  intros W C. unfold process_waitlist.
  destruct (PyDict.get c (conferences st)) as [conf|] eqn:Hc.
  2:{ intros [= <-]. auto. }
  destruct (promotion_loop c now (waitlist conf) (available_slots conf) st)
    as [[queue slots] st1] eqn:L.
  intros [= <-].
  destruct (promotion_loop_facts _ _ _ _ _ _ _ _ L) as (Hcs & _).
  destruct (promotion_loop_consistent _ _ _ _ _ _ _ _ L W C (get_contains _ _ _ Hc))
    as (W1 & C1 & Hin & Hnd).
  apply (consistent_set_conference c conf); simpl; auto.
  - now rewrite Hcs.
  - apply Hnd. exact (ok_queue_unique st C c conf Hc).
Qed.

Lemma reachable_consistent st : reachable st -> consistent st.
Proof.
  induction 1 as [|st st' R IH Hstep]; [apply consistent_initial|].
  pose proof (reachable_wf st R) as W.
  inversion Hstep as [now r st0|now c st0 st1 P]; subst.
  - now apply consistent_handle.
  - now apply (consistent_process_waitlist c now st).
Qed.

(** ** Catalogues only grow *)

Lemma same_description_refl conf : same_description conf conf.
Proof. repeat split. Qed.

Lemma same_description_trans conf1 conf2 conf3 :
  same_description conf1 conf2 -> same_description conf2 conf3 ->
  same_description conf1 conf3.
Proof. unfold same_description. intuition congruence. Qed.

(** Looking a conference up after an in-place update of some conference. *)
Lemma get_updated_conference (c k : string) conf conf0 conf' cs :
  PyDict.get c cs = Some conf ->
  PyDict.get k cs = Some conf0 ->
  same_description conf0 conf' ->
  exists conf1, PyDict.get c (PyDict.set k conf' cs) = Some conf1
                /\ same_description conf conf1.
Proof.
  intros Hc Hk Hd. case_get.
  - subst. exists conf'. split; auto. congruence.
  - exists conf. split; auto using same_description_refl.
Qed.

Lemma handle_users_persist now r st u x :
  PyDict.get u (users st) = Some x ->
  PyDict.get u (users (snd (handle now r st))) = Some x.
Proof.
  intros Hu. destruct r as [data|data|c u'|id|id|id]; simpl.
  - unfold add_user. destruct (validate_user data) as [[] message]; simpl; auto.
    destruct (PyDict.contains _ _) eqn:E; simpl; auto.
    apply contains_false in E. rewrite get_set_other; auto. congruence.
  - unfold add_conference. destruct (validate_conference data) as [[[] message]|e]; simpl; auto.
    destruct (PyDict.contains _ _); simpl; auto.
  - unfold book_conference.
    destruct (PyDict.get c (conferences st)); simpl; auto.
    destruct (PyDict.contains u' (users st)); simpl; auto.
    destruct (find_booking u' c (bookings st)); simpl; auto.
    destruct (available_slots _ <=? 0); simpl; auto.
  - unfold confirm_waitlist_booking.
    destruct (PyDict.get id (waitlists st)) as [e|]; simpl; auto.
    destruct (PyDict.get (w_Conference e) (conferences st)) as [conf|]; simpl; auto.
    destruct (available_slots conf <=? 0); simpl; auto.
    destruct (now - w_timestamp e >? hour); simpl; auto.
    destruct (list_remove id (waitlist conf)); simpl; auto.
  - unfold cancel_booking.
    destruct (PyDict.get id (bookings st)) as [b|]; simpl.
    + destruct (PyDict.get (b_Conference b) (conferences st)) as [conf|]; simpl; auto.
      destruct (waitlist conf); simpl; auto.
    + destruct (PyDict.get id (waitlists st)); simpl; auto.
  - unfold booking_status.
    destruct (PyDict.get id (bookings st)); simpl; auto.
    destruct (PyDict.get id (waitlists st)); simpl; auto.
Qed.

Lemma handle_conferences_persist now r st c conf :
  PyDict.get c (conferences st) = Some conf ->
  exists conf', PyDict.get c (conferences (snd (handle now r st))) = Some conf'
                /\ same_description conf conf'.
Proof.
  intros Hc.
  assert (Same : exists conf', PyDict.get c (conferences st) = Some conf'
                               /\ same_description conf conf')
    by eauto using same_description_refl.
  destruct r as [data|data|c0 u|id|id|id]; simpl.
  - unfold add_user. destruct (validate_user data) as [[] message]; simpl; auto.
    destruct (PyDict.contains _ _); simpl; auto.
  - unfold add_conference. destruct (validate_conference data) as [[[] message]|e]; simpl; auto.
    destruct (PyDict.contains _ _) eqn:E; simpl; auto.
    apply contains_false in E. rewrite get_set_other by congruence. auto.
  - unfold book_conference.
    destruct (PyDict.get c0 (conferences st)) as [conf0|] eqn:Hc0; simpl; auto.
    destruct (PyDict.contains u (users st)); simpl; auto.
    destruct (find_booking u c0 (bookings st)); simpl; auto.
    destruct (available_slots _ <=? 0); simpl;
      apply (get_updated_conference c c0 conf conf0); auto; repeat split.
  - unfold confirm_waitlist_booking.
    destruct (PyDict.get id (waitlists st)) as [e|]; simpl; auto.
    destruct (PyDict.get (w_Conference e) (conferences st)) as [conf0|] eqn:Hc0;
      simpl; auto.
    destruct (available_slots conf0 <=? 0); simpl; auto.
    destruct (now - w_timestamp e >? hour); simpl.
    + destruct (list_remove id (waitlist conf0)); simpl; auto.
      apply (get_updated_conference c _ conf conf0); auto; repeat split.
    + apply (get_updated_conference c _ conf conf0); auto; repeat split.
  - unfold cancel_booking.
    destruct (PyDict.get id (bookings st)) as [b|]; simpl.
    + destruct (PyDict.get (b_Conference b) (conferences st)) as [conf0|] eqn:Hc0;
        simpl; auto.
      destruct (waitlist conf0); simpl;
        apply (get_updated_conference c _ conf conf0); auto; repeat split.
    + destruct (PyDict.get id (waitlists st)); simpl; auto.
  - unfold booking_status.
    destruct (PyDict.get id (bookings st)); simpl; auto.
    destruct (PyDict.get id (waitlists st)); simpl; auto.
Qed.

Lemma step_persist st st' :
  step st st' ->
  (forall u x, PyDict.get u (users st) = Some x -> PyDict.get u (users st') = Some x)
  /\ (forall c conf, PyDict.get c (conferences st) = Some conf ->
        exists conf', PyDict.get c (conferences st') = Some conf'
                      /\ same_description conf conf').
Proof.
  intros Hstep. inversion Hstep as [now r st0|now c0 st0 st1 P]; subst.
  - split; auto using handle_users_persist, handle_conferences_persist.
  - unfold process_waitlist in P.
    destruct (PyDict.get c0 (conferences st)) as [conf0|] eqn:Hc0.
    2:{ injection P as <-. eauto using same_description_refl. }
    destruct (promotion_loop c0 now (waitlist conf0) (available_slots conf0) st)
      as [[queue slots] st1] eqn:L.
    injection P as <-.
    destruct (promotion_loop_facts _ _ _ _ _ _ _ _ L) as (Hcs & Hus & _).
    simpl. rewrite Hcs, Hus. split; auto.
    intros c conf Hc.
    apply (get_updated_conference c c0 conf conf0); auto; repeat split.
Qed.

(** X6: Users and conferences are create-only: whatever requests and
    promotion passes follow, a registered user keeps its record, and a
    registered conference stays registered with the name, location, topics
    and timestamps it was given; only its slots and its queue change. *)
Theorem catalogues_persist st st' :
  steps st st' ->
  (forall u x, PyDict.get u (users st) = Some x -> PyDict.get u (users st') = Some x)
  /\ (forall c conf, PyDict.get c (conferences st) = Some conf ->
        exists conf', PyDict.get c (conferences st') = Some conf'
                      /\ same_description conf conf').
Proof.
  induction 1 as [st st' Hstep|st|st1 st2 st3 _ [IHu1 IHc1] _ [IHu2 IHc2]].
  - now apply step_persist.
  - eauto using same_description_refl.
  - split; auto.
    intros c conf Hc. destruct (IHc1 _ _ Hc) as (conf2 & Hc2 & D2).
    destruct (IHc2 _ _ Hc2) as (conf3 & Hc3 & D3).
    eauto using same_description_trans.
Qed.

Lemma run_steps trace : forall st, steps st (run trace st).
Proof.
  induction trace as [|[now r] trace IH]; simpl; intros st.
  - apply rt_refl.
  - eapply rt_trans; [apply rt_step; constructor|apply IH].
Qed.

Lemma catalogues_persist_witness :
  let later :=
    [(1, BookConference "rocqconf" "alice"); (2, BookConference "rocqconf" "bob");
     (3, CancelBooking 0%N); (4, ConfirmWaitlistBooking 1%N)] in
  PyDict.get "bob" (users (run later (run setup initial))) = Some (mkUser "bob" "ai")
  /\ exists conf',
       PyDict.get "rocqconf" (conferences (run later (run setup initial))) = Some conf'
       /\ same_description (rocqconf_with 1 []) conf'.
Proof.
  intros later.
  destruct (catalogues_persist (run setup initial) (run later (run setup initial))
              (run_steps later (run setup initial)))
    as [Hu Hc].
  split.
  - exact (Hu "bob" (mkUser "bob" "ai") eq_refl).
  - exact (Hc "rocqconf" (rocqconf_with 1 []) eq_refl).
Defined.

(** ** Referential integrity *)

(** X7: In every reachable state a booking is stored under the identifier
    it carries and names a registered user and a registered conference, and
    a waitlist entry names a registered user and a registered conference in
    whose queue its identifier stands. *)
Theorem records_refer_to_registered st :
  reachable st ->
  (forall id b, PyDict.get id (bookings st) = Some b ->
     booking_id b = id
     /\ PyDict.contains (b_UserID b) (users st) = true
     /\ PyDict.contains (b_Conference b) (conferences st) = true)
  /\ (forall id e, PyDict.get id (waitlists st) = Some e ->
        PyDict.contains (w_UserID e) (users st) = true
        /\ exists conf, PyDict.get (w_Conference e) (conferences st) = Some conf
                        /\ In id (waitlist conf)).
Proof.
  intros R. pose proof (reachable_wf st R) as W.
  pose proof (reachable_consistent st R) as C. split.
  - intros id b Hb. repeat split.
    + exact (ok_booking_key st C id b Hb).
    + exact (ok_booking_user st C id b Hb).
    + exact (ok_booking_conference st C id b Hb).
  - intros id e He. split.
    + exact (ok_waiting_user st C id e He).
    + exact (wf_queued st W id e He).
Qed.

Lemma records_refer_to_registered_witness :
  (booking_id (mkBooking 4%N "bob" "rocqconf" 7) = 4%N
   /\ PyDict.contains "bob" (users (run double_booking initial)) = true
   /\ PyDict.contains "rocqconf" (conferences (run double_booking initial)) = true)
  /\ (PyDict.contains "carol" (users (run two_waiting initial)) = true
      /\ exists conf,
           PyDict.get "rocqconf" (conferences (run two_waiting initial)) = Some conf
           /\ In 2%N (waitlist conf)).
Proof.
  split.
  - exact (proj1 (records_refer_to_registered (run double_booking initial)
                    (run_reachable double_booking initial reachable_initial))
             4%N (mkBooking 4%N "bob" "rocqconf" 7) eq_refl).
  - exact (proj2 (records_refer_to_registered (run two_waiting initial)
                    (run_reachable two_waiting initial reachable_initial))
             2%N (mkWaitlistEntry "carol" "rocqconf" 3) eq_refl).
Defined.



(** X9: The defensive branch of [confirm_waitlist_booking] is dead: in a
    reachable state no confirmation is answered with "Conference not
    found.", because the conference of a live waitlist entry is always
    registered. *)
Theorem confirm_finds_conference st now id :
  reachable st ->
  fst (confirm_waitlist_booking now id st) <> Response (JError "Conference not found.") 404.
Proof.
  intros R. pose proof (reachable_wf st R) as W.
  unfold confirm_waitlist_booking.
  destruct (PyDict.get id (waitlists st)) as [entry|] eqn:Hw; simpl; [|discriminate].
  destruct (wf_queued st W id entry Hw) as (conf & Hc & Hin). rewrite Hc. simpl.
  destruct (available_slots conf <=? 0); simpl; [discriminate|].
  destruct (now - w_timestamp entry >? hour); simpl.
  - destruct (list_remove id (waitlist conf)); simpl; discriminate.
  - discriminate.
Qed.

Lemma confirm_finds_conference_witness :
  fst (confirm_waitlist_booking 9 1%N (run two_waiting initial))
  <> Response (JError "Conference not found.") 404.
Proof.
  exact (confirm_finds_conference (run two_waiting initial) 9 1%N
           (run_reachable two_waiting initial reachable_initial)).
Defined.

(** X10: [booking_status] is unambiguous: in a reachable state no identifier
    is a booking and a waitlist entry at once, so every booking is reported
    as "Confirmed" and every live waitlist entry as " In Waitlist", each with
    its own conference and user. *)
Theorem status_reports_each_record st id :
  reachable st ->
  (forall b, PyDict.get id (bookings st) = Some b ->
     PyDict.get id (waitlists st) = None
     /\ booking_status id st
        = (Response (JStatus "Confirmed" (b_Conference b) (b_UserID b)) 200, st))
  /\ (forall e, PyDict.get id (waitlists st) = Some e ->
        PyDict.get id (bookings st) = None
        /\ booking_status id st
           = (Response (JStatus " In Waitlist" (w_Conference e) (w_UserID e)) 200, st)).
Proof.
  intros R. pose proof (reachable_consistent st R) as C. split.
  - intros b Hb. split; [exact (ok_ids_disjoint st C id b Hb)|].
    unfold booking_status. now rewrite Hb.
  - intros e He.
    assert (Hb : PyDict.get id (bookings st) = None).
    { destruct (PyDict.get id (bookings st)) as [b|] eqn:Hb; auto.
      pose proof (ok_ids_disjoint st C id b Hb). congruence. }
    split; auto. unfold booking_status. now rewrite Hb, He.
Qed.

Lemma status_reports_each_record_witness :
  PyDict.get 2%N (bookings (run two_waiting initial)) = None
  /\ booking_status 2%N (run two_waiting initial)
     = (Response (JStatus " In Waitlist" "rocqconf" "carol") 200, run two_waiting initial).
Proof.
  exact (proj2 (status_reports_each_record (run two_waiting initial) 2%N
                  (run_reachable two_waiting initial reachable_initial))
           (mkWaitlistEntry "carol" "rocqconf" 3) eq_refl).
Defined.

(** ** Booking, looking up, cancelling *)

(** X11: The identifier [book_conference] hands out is visible at once:
    after a booking answer [booking_status] reports it as "Confirmed", after
    a waitlist answer as " In Waitlist", with the conference and user of the
    request. *)
Theorem booked_id_visible st now c u :
  reachable st ->
  (forall id, fst (book_conference now c u st) = Response (JBooked id) 200 ->
     booking_status id (snd (book_conference now c u st))
     = (Response (JStatus "Confirmed" c u) 200, snd (book_conference now c u st)))
  /\ (forall id message,
        fst (book_conference now c u st) = Response (JWaitlisted id message) 200 ->
        booking_status id (snd (book_conference now c u st))
        = (Response (JStatus " In Waitlist" c u) 200, snd (book_conference now c u st))).
Proof.
  intros R. pose proof (reachable_wf st R) as W.
  unfold book_conference.
  destruct (PyDict.get c (conferences st)) as [conf|]; simpl;
    [|split; intros; discriminate].
  destruct (PyDict.contains u (users st)); simpl; [|split; intros; discriminate].
  destruct (find_booking u c (bookings st)); simpl; [split; intros; discriminate|].
  destruct (available_slots conf <=? 0); simpl; split; try (intros; discriminate).
  - intros id message [= <- _]. unfold booking_status. simpl.
    pose proof (wf_fresh_bookings st W (issued st) (N.le_refl _)) as Fb.
    unfold uuid in *. rewrite Fb. now rewrite get_set_same.
  - intros id [= <-]. unfold booking_status. simpl. now rewrite get_set_same.
Qed.

Lemma booked_id_visible_witness :
  booking_status 0%N (snd (book_conference 1 "rocqconf" "alice" (run setup initial)))
  = (Response (JStatus "Confirmed" "rocqconf" "alice") 200,
     snd (book_conference 1 "rocqconf" "alice" (run setup initial))).
Proof.
  exact (proj1 (booked_id_visible (run setup initial) 1 "rocqconf" "alice"
                  (run_reachable setup initial reachable_initial))
           0%N eq_refl).
Defined.

Lemma restore_slots conf :
  set_available_slots (available_slots conf - 1 + 1)
    (set_available_slots (available_slots conf - 1) conf) = conf.
Proof.
  destruct conf as [n l t s e slots q]. unfold set_available_slots. simpl.
  f_equal. lia.
Qed.

(** X12: Booking and cancelling undo each other while nobody waits: if
    [book_conference] answers with a booking for a conference whose queue is
    empty, cancelling that booking succeeds and leaves the four dictionaries
    exactly as they were before the booking. *)
Theorem book_then_cancel_restores st now now' c u conf id :
  reachable st ->
  PyDict.get c (conferences st) = Some conf ->
  waitlist conf = [] ->
  fst (book_conference now c u st) = Response (JBooked id) 200 ->
  let st1 := snd (book_conference now c u st) in
  let st2 := snd (cancel_booking now' id st1) in
  fst (cancel_booking now' id st1) = Response (JMessage "Booking canceled successfully.") 200
  /\ conferences st2 = conferences st
  /\ users st2 = users st
  /\ bookings st2 = bookings st
  /\ waitlists st2 = waitlists st.
Proof.
  intros R Hc Hq. pose proof (reachable_wf st R) as W.
  pose proof (wf_fresh_bookings st W (issued st) (N.le_refl _)) as Fb.
  unfold book_conference. rewrite Hc.
  destruct (PyDict.contains u (users st)); simpl; [|discriminate].
  destruct (find_booking u c (bookings st)); simpl; [discriminate|].
  destruct (available_slots conf <=? 0); simpl; [discriminate|].
  intros [= <-]. unfold cancel_booking. simpl.
  rewrite !get_set_same. simpl. rewrite Hq. simpl.
  repeat split.
  - rewrite set_set, restore_slots. now apply set_same.
  - now apply del_set_fresh.
Qed.

Lemma book_then_cancel_restores_witness :
  let st := run setup initial in
  let st1 := snd (book_conference 1 "rocqconf" "alice" st) in
  let st2 := snd (cancel_booking 2 0%N st1) in
  fst (cancel_booking 2 0%N st1) = Response (JMessage "Booking canceled successfully.") 200
  /\ conferences st2 = conferences st
  /\ users st2 = users st
  /\ bookings st2 = bookings st
  /\ waitlists st2 = waitlists st.
Proof.
  exact (book_then_cancel_restores (run setup initial) 1 2 "rocqconf" "alice"
           (rocqconf_with 1 []) 0%N
           (run_reachable setup initial reachable_initial) eq_refl eq_refl eq_refl).
Defined.

Lemma find_none_filter {A} (p : A -> bool) l : find p l = None -> filter p l = [].
Proof.
  induction l as [|a l IH]; simpl; auto.
  destruct (p a); [discriminate|auto].
Qed.

(** X13: [book_conference] never creates a second booking for a pair: when
    it answers with a booking, the user had no booking for the conference
    before and has exactly that one afterwards. *)
Theorem booking_is_first_for_pair st now c u id :
  reachable st ->
  fst (book_conference now c u st) = Response (JBooked id) 200 ->
  bookings_of u c st = []
  /\ bookings_of u c (snd (book_conference now c u st)) = [id].
Proof.
  intros R. pose proof (reachable_wf st R) as W.
  pose proof (wf_fresh_bookings st W (issued st) (N.le_refl _)) as Fb.
  unfold book_conference.
  destruct (PyDict.get c (conferences st)) as [conf|]; simpl; [|discriminate].
  destruct (PyDict.contains u (users st)); simpl; [|discriminate].
  destruct (find_booking u c (bookings st)) eqn:Hfind; simpl; [discriminate|].
  destruct (available_slots conf <=? 0); simpl; [discriminate|].
  intros [= <-]. unfold find_booking in Hfind. apply find_none_filter in Hfind.
  unfold bookings_of. cbn [snd bookings with_conferences with_bookings].
  rewrite Hfind. split; auto.
  rewrite set_fresh by auto. unfold PyDict.values in *.
  rewrite map_app, filter_app, Hfind. simpl.
  now rewrite !String.eqb_refl.
Qed.

Lemma booking_is_first_for_pair_witness :
  bookings_of "alice" "rocqconf" (run setup initial) = []
  /\ bookings_of "alice" "rocqconf"
       (snd (book_conference 1 "rocqconf" "alice" (run setup initial))) = [0%N].
Proof.
  exact (booking_is_first_for_pair (run setup initial) 1 "rocqconf" "alice" 0%N
           (run_reachable setup initial reachable_initial) eq_refl).
Defined.

Lemma find_booking_get u c bs b :
  NoDup (map fst bs) ->
  find_booking u c bs = Some b ->
  exists id, PyDict.get id bs = Some b /\ b_Conference b = c.
Proof.
  intros Hnd Hfind. unfold find_booking in Hfind. apply find_some in Hfind.
  destruct Hfind as [Hin Hp]. apply andb_prop in Hp. destruct Hp as [_ Hc].
  apply String.eqb_eq in Hc. unfold PyDict.values in Hin.
  apply in_map_iff in Hin. destruct Hin as ([id b'] & Hb & Hin). simpl in Hb. subst b'.
  exists id. split; auto. now apply In_get.
Qed.

(** X20: A conference that was just registered takes a booking from any
    registered user: the answer is a booking under the next identifier, and
    one slot of the capacity is gone. *)
Theorem new_conference_accepts_booking st data now u :
  reachable st ->
  fst (add_conference data st)
    = Response (JMessage "Conference added successfully.") 200 ->
  PyDict.contains u (users st) = true ->
  let st1 := snd (add_conference data st) in
  fst (book_conference now (d_name data) u st1) = Response (JBooked (issued st)) 200
  /\ slots_of (d_name data) (snd (book_conference now (d_name data) u st1))
     = Some (d_available_slots data - 1).
Proof.
  intros R. pose proof (reachable_consistent st R) as C.
  unfold add_conference.
  destruct (validate_conference data) as [[[] message]|e] eqn:V; cbn [negb fst snd];
    try discriminate.
  destruct (PyDict.contains (d_name data) (conferences st)) eqn:Hnew; cbn [fst snd];
    [discriminate|].
  intros _ Hu. apply validate_conference_slots in V.
  unfold book_conference. simpl. rewrite get_set_same, Hu. simpl.
  destruct (find_booking u (d_name data) (bookings st)) as [b|] eqn:Hfind.
  { exfalso. destruct (find_booking_get _ _ _ _ (ok_booking_keys st C) Hfind)
      as (id & Hb & Hconf).
    pose proof (ok_booking_conference st C id b Hb) as Hb'. congruence. }
  destruct (Z.leb_spec (d_available_slots data) 0); [lia|]. simpl.
  split; auto. unfold slots_of. simpl. now rewrite get_set_same.
Qed.

Lemma new_conference_accepts_booking_witness :
  let data := mkConferenceData "types" "room 2" "logic" (Some (Naive 0)) (Some (Naive (2 * hour))) 40 in
  let st1 := snd (add_conference data (run two_waiting initial)) in
  fst (book_conference 9 "types" "bob" st1) = Response (JBooked 3%N) 200
  /\ slots_of "types" (snd (book_conference 9 "types" "bob" st1)) = Some (40 - 1).
Proof.
  exact (new_conference_accepts_booking (run two_waiting initial)
           (mkConferenceData "types" "room 2" "logic" (Some (Naive 0)) (Some (Naive (2 * hour))) 40)
           9 "bob"
           (run_reachable two_waiting initial reachable_initial) eq_refl eq_refl).
Defined.

(** ** Slot accounting *)

Lemma count_set_fresh {V} (p : V -> bool) (k : uuid) v (d : PyDict.dict uuid V) :
  PyDict.get k d = None ->
  List.length (filter p (PyDict.values (PyDict.set k v d)))
  = (List.length (filter p (PyDict.values d)) + (if p v then 1 else 0))%nat.
Proof.
  intros E. rewrite set_fresh by auto. unfold PyDict.values.
  rewrite map_app, filter_app, length_app. simpl. now destruct (p v).
Qed.

Lemma count_del {V} (p : V -> bool) (k : uuid) v (d : PyDict.dict uuid V) :
  NoDup (map fst d) ->
  PyDict.get k d = Some v ->
  (List.length (filter p (PyDict.values (PyDict.del k d))) + (if p v then 1 else 0))%nat
  = List.length (filter p (PyDict.values d)).
Proof.
  induction d as [|[k0 v0] d IH]; simpl; [discriminate|].
  intros Hnd. inversion Hnd as [|? ? Hnotin Hnd']; subst.
  destruct (N.eqb_spec k k0) as [->|Hne].
  - intros [= ->]. rewrite del_absent by now apply get_notin_keys.
    destruct (p v); simpl; lia.
  - intros E. simpl. specialize (IH Hnd' E). destruct (p v0); simpl; lia.
Qed.

Section Occupancy.
Variables (c : string) (st : state).

Lemma occupancy_frame st' :
  PyDict.get c (conferences st') = PyDict.get c (conferences st) ->
  bookings st' = bookings st ->
  occupancy c st' = occupancy c st.
Proof.
  intros Hc Hb. unfold occupancy, active_bookings. now rewrite Hc, Hb.
Qed.

(** A conference object that keeps its slot count, bookings untouched. *)
Lemma occupancy_same_slots st' c0 conf0 conf' :
  PyDict.get c0 (conferences st) = Some conf0 ->
  available_slots conf' = available_slots conf0 ->
  conferences st' = PyDict.set c0 conf' (conferences st) ->
  bookings st' = bookings st ->
  occupancy c st' = occupancy c st.
Proof.
  intros Hc0 Hslots Hcs Hbs. unfold occupancy, active_bookings. rewrite Hcs, Hbs.
  case_get; auto. subst. rewrite Hc0. simpl. now rewrite Hslots.
Qed.

(** A slot taken and a booking for that conference stored under a new
    identifier. *)
Lemma occupancy_booked st' c0 conf0 id b :
  PyDict.get c0 (conferences st) = Some conf0 ->
  PyDict.get id (bookings st) = None ->
  b_Conference b = c0 ->
  conferences st'
    = PyDict.set c0 (set_available_slots (available_slots conf0 - 1) conf0) (conferences st) ->
  bookings st' = PyDict.set id b (bookings st) ->
  occupancy c st' = occupancy c st.
Proof.
  intros Hc0 Hid Hb Hcs Hbs. unfold occupancy, active_bookings. rewrite Hcs, Hbs.
  rewrite count_set_fresh by auto. rewrite Hb. case_get.
  - subst. rewrite Hc0, String.eqb_refl. simpl. f_equal. lia.
  - rewrite (proj2 (String.eqb_neq c0 c)) by auto. now rewrite Nat.add_0_r.
Qed.

(** A slot given back and the booking that held it deleted. *)
Lemma occupancy_cancelled st' c0 conf0 id b :
  PyDict.get c0 (conferences st) = Some conf0 ->
  NoDup (map fst (bookings st)) ->
  PyDict.get id (bookings st) = Some b ->
  b_Conference b = c0 ->
  conferences st'
    = PyDict.set c0 (set_available_slots (available_slots conf0 + 1) conf0) (conferences st) ->
  bookings st' = PyDict.del id (bookings st) ->
  occupancy c st' = occupancy c st.
Proof.
  intros Hc0 Hnd Hid Hb Hcs Hbs. unfold occupancy, active_bookings. rewrite Hcs, Hbs.
  pose proof (count_del (fun b => String.eqb (b_Conference b) c) id b (bookings st) Hnd Hid)
    as Hcount.
  cbv beta in Hcount. rewrite Hb in Hcount. case_get.
  - subst. rewrite Hc0. rewrite String.eqb_refl in Hcount. simpl. f_equal. lia.
  - rewrite (proj2 (String.eqb_neq c0 c)) in Hcount by auto.
    rewrite Nat.add_0_r in Hcount. now rewrite Hcount.
Qed.
End Occupancy.

(** X14: Every request that does not raise conserves, for every registered
    conference, the sum of its free slots and its active bookings. *)
Theorem request_conserves_occupancy st now r c conf :
  reachable st ->
  (forall e, fst (handle now r st) <> Raised e) ->
  PyDict.get c (conferences st) = Some conf ->
  occupancy c (snd (handle now r st)) = occupancy c st.
Proof.
  intros R Hok Hc. pose proof (reachable_wf st R) as W.
  pose proof (reachable_consistent st R) as C.
  pose proof (wf_fresh_bookings st W (issued st) (N.le_refl _)) as Fb.
  destruct r as [data|data|c0 u|id|id|id]; simpl in *.
  - unfold add_user. destruct (validate_user data) as [[] message]; simpl; auto.
    destruct (PyDict.contains _ _); simpl; auto.
  - unfold add_conference. destruct (validate_conference data) as [[[] message]|e]; simpl; auto.
    destruct (PyDict.contains _ _) eqn:E; simpl; auto.
    apply contains_false in E. apply occupancy_frame; simpl; auto.
    apply get_set_other. congruence.
  - unfold book_conference.
    destruct (PyDict.get c0 (conferences st)) as [conf0|] eqn:Hc0; simpl; auto.
    destruct (PyDict.contains u (users st)); simpl; auto.
    destruct (find_booking u c0 (bookings st)); simpl; auto.
    destruct (available_slots conf0 <=? 0); simpl.
    + eapply (occupancy_same_slots c st _ c0 conf0);
        [exact Hc0| |simpl; reflexivity|reflexivity]; reflexivity.
    + eapply (occupancy_booked c st _ c0 conf0 (issued st));
        [exact Hc0|exact Fb| |simpl; reflexivity|simpl; reflexivity]; reflexivity.
  - unfold confirm_waitlist_booking.
    destruct (PyDict.get id (waitlists st)) as [entry|]; simpl; auto.
    destruct (PyDict.get (w_Conference entry) (conferences st)) as [conf0|] eqn:Hc0;
      simpl; auto.
    destruct (available_slots conf0 <=? 0); simpl; auto.
    destruct (now - w_timestamp entry >? hour); simpl.
    + destruct (list_remove id (waitlist conf0)); simpl; auto.
      eapply (occupancy_same_slots c st _ _ conf0);
        [exact Hc0| |simpl; reflexivity|reflexivity]; reflexivity.
    + eapply (occupancy_booked c st _ _ conf0 (issued st));
        [exact Hc0|exact Fb| |simpl; reflexivity|simpl; reflexivity]; reflexivity.
  - revert Hok. unfold cancel_booking.
    destruct (PyDict.get id (bookings st)) as [b|] eqn:Hb; simpl.
    + destruct (PyDict.get (b_Conference b) (conferences st)) as [conf0|] eqn:Hc0;
        simpl; [|intros Hok; now elim (Hok _ eq_refl)].
      destruct (waitlist conf0); simpl; [|intros Hok; now elim (Hok _ eq_refl)].
      intros _.
      eapply (occupancy_cancelled c st _ _ conf0 id b);
        [exact Hc0|exact (ok_booking_keys st C)|exact Hb|reflexivity
        |simpl; reflexivity|simpl; reflexivity].
    + destruct (PyDict.get id (waitlists st)); simpl; auto.
  - unfold booking_status.
    destruct (PyDict.get id (bookings st)); simpl; auto.
    destruct (PyDict.get id (waitlists st)); simpl; auto.
Qed.

Lemma request_conserves_occupancy_witness :
  occupancy "rocqconf"
    (snd (handle 3 (ConfirmWaitlistBooking 1%N) (run waiting_twice initial)))
  = occupancy "rocqconf" (run waiting_twice initial).
Proof.
  refine (request_conserves_occupancy (run waiting_twice initial) 3
            (ConfirmWaitlistBooking 1%N) "rocqconf" (rocqconf_with 2 [1%N; 2%N])
            (run_reachable waiting_twice initial reachable_initial) _ eq_refl).
  intros e. vm_compute. intros H. discriminate H.
Defined.

(** ** Waitlist queues *)

(** X15: In every reachable state a waitlist identifier stands at most once
    in a queue, and in the queue of one conference only. *)
Theorem queues_hold_each_id_once st :
  reachable st ->
  (forall c conf, PyDict.get c (conferences st) = Some conf -> NoDup (waitlist conf))
  /\ (forall c c' conf conf' id,
        c <> c' ->
        PyDict.get c (conferences st) = Some conf ->
        PyDict.get c' (conferences st) = Some conf' ->
        In id (waitlist conf) -> ~ In id (waitlist conf')).
Proof.
  intros R. pose proof (reachable_consistent st R) as C. split.
  - exact (ok_queue_unique st C).
  - exact (ok_queues_disjoint st C).
Qed.

Lemma queues_hold_each_id_once_witness :
  NoDup (waitlist (rocqconf_with 3 [2%N; 3%N; 1%N])).
Proof.
  exact (proj1 (queues_hold_each_id_once (run mixed_queue initial)
                  (run_reachable mixed_queue initial reachable_initial))
           "rocqconf" (rocqconf_with 3 [2%N; 3%N; 1%N]) eq_refl).
Defined.

(** Looking a queue up after an in-place update of some conference. *)
Lemma queue_after_update (c k : string) conf0 conf' cs q :
  option_map waitlist (PyDict.get c cs) = Some q ->
  PyDict.get k cs = Some conf0 ->
  (forall id, In id (waitlist conf0) -> In id (waitlist conf')) ->
  (List.length (waitlist conf0) <= List.length (waitlist conf'))%nat ->
  exists q', option_map waitlist (PyDict.get c (PyDict.set k conf' cs)) = Some q'
             /\ (forall id, In id q -> In id q')
             /\ (List.length q <= List.length q')%nat.
Proof.
  intros Hq Hk Hin Hlen. case_get.
  - subst. rewrite Hk in Hq. simpl in *. injection Hq as <-. eauto.
  - eauto.
Qed.

Lemma handle_keeps_queue now r st c q :
  queue_of c st = Some q ->
  exists q', queue_of c (snd (handle now r st)) = Some q'
             /\ (forall id, In id q -> In id q')
             /\ (List.length q <= List.length q')%nat.
Proof.
  unfold queue_of. intros Hq.
  assert (Same : exists q', option_map waitlist (PyDict.get c (conferences st)) = Some q'
                            /\ (forall id, In id q -> In id q')
                            /\ (List.length q <= List.length q')%nat) by eauto.
  destruct r as [data|data|c0 u|id|id|id]; simpl.
  - unfold add_user. destruct (validate_user data) as [[] message]; simpl; auto.
    destruct (PyDict.contains _ _); simpl; auto.
  - unfold add_conference. destruct (validate_conference data) as [[[] message]|e]; simpl; auto.
    destruct (PyDict.contains _ _) eqn:E; simpl; auto.
    apply contains_false in E. rewrite get_set_other; auto.
    intros Heq. rewrite <- Heq, E in Hq. discriminate Hq.
  - unfold book_conference.
    destruct (PyDict.get c0 (conferences st)) as [conf0|] eqn:Hc0; simpl; auto.
    destruct (PyDict.contains u (users st)); simpl; auto.
    destruct (find_booking u c0 (bookings st)); simpl; auto.
    destruct (available_slots conf0 <=? 0); simpl;
      apply (queue_after_update c c0 conf0); simpl; auto.
    + intros id Hin. apply in_or_app. now left.
    + rewrite length_app. simpl. lia.
  - unfold confirm_waitlist_booking.
    destruct (PyDict.get id (waitlists st)) as [entry|]; simpl; auto.
    destruct (PyDict.get (w_Conference entry) (conferences st)) as [conf0|] eqn:Hc0;
      simpl; auto.
    destruct (available_slots conf0 <=? 0); simpl; auto.
    destruct (now - w_timestamp entry >? hour); simpl.
    + destruct (list_remove id (waitlist conf0)) as [rest|] eqn:Hr; simpl; auto.
      pose proof (list_remove_Permutation _ _ _ Hr) as P.
      apply (queue_after_update c _ conf0); simpl; auto.
      * intros id' Hin. exact (Permutation_in id' P Hin).
      * rewrite (Permutation_length P). lia.
    + apply (queue_after_update c _ conf0); simpl; auto.
  - unfold cancel_booking.
    destruct (PyDict.get id (bookings st)) as [b|]; simpl.
    + destruct (PyDict.get (b_Conference b) (conferences st)) as [conf0|] eqn:Hc0;
        simpl; auto.
      destruct (waitlist conf0) eqn:Hw; simpl;
        apply (queue_after_update c _ conf0); simpl; auto.
    + destruct (PyDict.get id (waitlists st)); simpl; auto.
  - unfold booking_status.
    destruct (PyDict.get id (bookings st)); simpl; auto.
    destruct (PyDict.get id (waitlists st)); simpl; auto.
Qed.

Lemma run_keeps_queue trace :
  forall st c q,
    queue_of c st = Some q ->
    exists q', queue_of c (run trace st) = Some q'
               /\ (forall id, In id q -> In id q')
               /\ (List.length q <= List.length q')%nat.
Proof.
  induction trace as [|[now r] trace IH]; simpl; intros st c q Hq.
  - eauto.
  - destruct (handle_keeps_queue now r st c q Hq) as (q1 & Hq1 & Hin1 & Hlen1).
    destruct (IH _ c q1 Hq1) as (q2 & Hq2 & Hin2 & Hlen2).
    exists q2. repeat split; auto. lia.
Qed.

(** X16: No request ever takes an identifier out of a waitlist queue:
    along any sequence of requests every identifier queued for a conference
    stays queued, and the queue never gets shorter.  (Only a promotion pass
    pops identifiers, and no request reaches one.) *)
Theorem requests_never_dequeue trace st c q :
  queue_of c st = Some q ->
  exists q', queue_of c (run trace st) = Some q'
             /\ (forall id, In id q -> In id q')
             /\ (List.length q <= List.length q')%nat.
Proof. apply run_keeps_queue. Qed.

Lemma requests_never_dequeue_witness :
  let later := [(9, CancelBooking 1%N); (10, CancelBooking 0%N);
                (hour, ConfirmWaitlistBooking 2%N)] in
  exists q', queue_of "rocqconf" (run later (run two_waiting initial)) = Some q'
             /\ (forall id, In id [1%N; 2%N] -> In id q')
             /\ (List.length [1%N; 2%N] <= List.length q')%nat.
Proof.
  intros later.
  exact (requests_never_dequeue later (run two_waiting initial) "rocqconf"
           [1%N; 2%N] eq_refl).
Defined.

(** X17: Once somebody has been waitlisted for a conference, no booking of
    that conference can be cancelled any more: whatever requests follow,
    [cancel_booking] on such a booking raises [TypeError] and the booking
    stays. *)
Theorem waitlist_blocks_cancellation trace st c q now id b :
  queue_of c st = Some q ->
  q <> [] ->
  PyDict.get id (bookings (run trace st)) = Some b ->
  b_Conference b = c ->
  fst (cancel_booking now id (run trace st)) = Raised (TypeError "unhashable type: 'dict'")
  /\ PyDict.get id (bookings (snd (cancel_booking now id (run trace st)))) = Some b.
Proof.
  intros Hq Hne Hb Hc.
  destruct (run_keeps_queue trace st c q Hq) as (q' & Hq' & _ & Hlen).
  unfold queue_of in Hq'. unfold cancel_booking. rewrite Hb, Hc.
  destruct (PyDict.get c (conferences (run trace st))) as [conf|]; [|discriminate].
  simpl in Hq'. injection Hq' as <-. simpl.
  destruct (waitlist conf) as [|w ws].
  - destruct q; [congruence|simpl in Hlen; lia].
  - simpl. auto.
Qed.

Lemma waitlist_blocks_cancellation_witness :
  let later := [(3, BookConference "rocqconf" "carol"); (4, CancelBooking 1%N);
                (5, BookingStatus 0%N)] in
  fst (cancel_booking 6 0%N (run later (run one_waiting initial)))
  = Raised (TypeError "unhashable type: 'dict'")
  /\ PyDict.get 0%N
       (bookings (snd (cancel_booking 6 0%N (run later (run one_waiting initial)))))
     = Some (mkBooking 0%N "alice" "rocqconf" 1).
Proof.
  intros later.
  refine (waitlist_blocks_cancellation later (run one_waiting initial) "rocqconf"
            [1%N] 6 0%N (mkBooking 0%N "alice" "rocqconf" 1) eq_refl _ eq_refl eq_refl).
  intros H. discriminate H.
Defined.

(** ** Accounting of a promotion pass *)

Lemma promotion_loop_accounting c now queue :
  forall slots st queue' slots' st',
    promotion_loop c now queue slots st = (queue', slots', st') ->
    wf st ->
    slots' <= slots
    /\ Z.of_nat (List.length queue') + (slots - slots') = Z.of_nat (List.length queue)
    /\ forall c',
         Z.of_nat (List.length (active_bookings c' st'))
         = Z.of_nat (List.length (active_bookings c' st))
           + (if String.eqb c c' then slots - slots' else 0).
Proof.
  assert (Stop : forall (q q' : list uuid) slots st,
             List.length q' = List.length q ->
             slots <= slots
             /\ Z.of_nat (List.length q') + (slots - slots) = Z.of_nat (List.length q)
             /\ forall c',
                  Z.of_nat (List.length (active_bookings c' st))
                  = Z.of_nat (List.length (active_bookings c' st))
                    + (if String.eqb c c' then slots - slots else 0)).
  { intros q q' slots st Hlen. split; [lia|split; [lia|]].
    intros c'. destruct (String.eqb c c'); lia. }
  induction queue as [|head rest IH]; intros slots st queue' slots' st' E W;
    simpl in E.
  - injection E as <- <- <-. now apply Stop.
  - assert (Hrequeue : List.length (rest ++ [head]) = List.length (head :: rest)).
    { rewrite length_app. simpl. lia. }
    destruct (slots >? 0).
    2:{ injection E as <- <- <-. now apply Stop. }
    destruct (PyDict.get head (waitlists st)) as [e|] eqn:Hw.
    2:{ injection E as <- <- <-. now apply Stop. }
    destruct (now - w_timestamp e >? hour).
    2:{ injection E as <- <- <-. now apply Stop. }
    apply IH in E.
    2:{ apply (wf_del_waitlist head
                 (mkState (conferences st) (users st) _ (waitlists st) _)).
        now apply wf_issue_booking. }
    destruct E as (Hle & Hlen & Hcount). cbn [List.length].
    split; [lia|split; [lia|]].
    intros c'. rewrite Hcount. unfold active_bookings.
    cbn [bookings with_waitlists with_bookings with_conferences uuid4 snd fst].
    rewrite count_set_fresh by exact (wf_fresh_bookings st W (issued st) (N.le_refl _)).
    cbn [b_Conference]. destruct (String.eqb c c'); lia.
Qed.

(** X18: A promotion pass on a registered conference always completes, and
    its books balance: every slot it takes removes one identifier from the
    queue and adds one booking for that conference, so the sum of free slots
    and active bookings is unchanged; other conferences are not touched. *)
Theorem promotion_pass_accounting st now c conf :
  reachable st ->
  PyDict.get c (conferences st) = Some conf ->
  exists st' conf',
    process_waitlist (PyStr c) now st = Ok st'
    /\ PyDict.get c (conferences st') = Some conf'
    /\ available_slots conf' <= available_slots conf
    /\ Z.of_nat (List.length (waitlist conf'))
       + (available_slots conf - available_slots conf')
       = Z.of_nat (List.length (waitlist conf))
    /\ Z.of_nat (List.length (active_bookings c st'))
       = Z.of_nat (List.length (active_bookings c st))
         + (available_slots conf - available_slots conf')
    /\ occupancy c st' = occupancy c st
    /\ forall c', c' <> c ->
         PyDict.get c' (conferences st') = PyDict.get c' (conferences st)
         /\ occupancy c' st' = occupancy c' st.
Proof.
  intros R Hc. pose proof (reachable_wf st R) as W.
  unfold process_waitlist. rewrite Hc.
  destruct (promotion_loop c now (waitlist conf) (available_slots conf) st)
    as [[queue slots] st1] eqn:L.
  destruct (promotion_loop_facts _ _ _ _ _ _ _ _ L) as (Hcs & _).
  destruct (promotion_loop_accounting _ _ _ _ _ _ _ _ L W) as (Hle & Hlen & Hcount).
  eexists. exists (set_waitlist queue (set_available_slots slots conf)).
  split; [reflexivity|]. simpl. rewrite get_set_same.
  assert (Hactive : forall c', active_bookings c'
                                 (with_conferences
                                    (PyDict.set c
                                       (set_waitlist queue
                                          (set_available_slots slots conf))
                                       (conferences st1)) st1)
                               = active_bookings c' st1) by reflexivity.
  repeat split; auto.
  - rewrite Hactive, Hcount, String.eqb_refl. reflexivity.
  - unfold occupancy. rewrite Hactive. simpl. rewrite get_set_same, Hc. simpl.
    f_equal. rewrite Hcount, String.eqb_refl. lia.
  - rewrite Hcs. apply get_set_other. congruence.
  - unfold occupancy. rewrite Hactive. simpl. rewrite Hcs.
    rewrite get_set_other by congruence.
    destruct (PyDict.get c' (conferences st)); simpl; auto.
    f_equal. rewrite Hcount. rewrite (proj2 (String.eqb_neq c c')) by congruence. lia.
Qed.

Lemma promotion_pass_accounting_witness :
  exists st' conf',
    process_waitlist (PyStr "rocqconf") (hour + 5) (run mixed_queue initial) = Ok st'
    /\ PyDict.get "rocqconf" (conferences st') = Some conf'
    /\ available_slots conf' <= 3
    /\ Z.of_nat (List.length (waitlist conf')) + (3 - available_slots conf')
       = Z.of_nat (List.length [2%N; 3%N; 1%N])
    /\ Z.of_nat (List.length (active_bookings "rocqconf" st'))
       = Z.of_nat (List.length (active_bookings "rocqconf" (run mixed_queue initial)))
         + (3 - available_slots conf')
    /\ occupancy "rocqconf" st' = occupancy "rocqconf" (run mixed_queue initial)
    /\ forall c', c' <> "rocqconf" ->
         PyDict.get c' (conferences st')
         = PyDict.get c' (conferences (run mixed_queue initial))
         /\ occupancy c' st' = occupancy c' (run mixed_queue initial).
Proof.
  exact (promotion_pass_accounting (run mixed_queue initial) (hour + 5) "rocqconf"
           (rocqconf_with 3 [2%N; 3%N; 1%N])
           (run_reachable mixed_queue initial reachable_initial) eq_refl).
Defined.

(** X19: A promotion pass has nothing to do, and changes nothing at all,
    when the conference is unknown, has no free slot, or has an empty
    queue. *)
Theorem idle_pass_changes_nothing st now c :
  (forall conf, PyDict.get c (conferences st) = Some conf ->
     available_slots conf <= 0 \/ waitlist conf = []) ->
  process_waitlist (PyStr c) now st = Ok st.
Proof.
  intros Hidle. unfold process_waitlist.
  destruct (PyDict.get c (conferences st)) as [conf|] eqn:Hc; auto.
  assert (L : promotion_loop c now (waitlist conf) (available_slots conf) st
              = (waitlist conf, available_slots conf, st)).
  { destruct (Hidle conf eq_refl) as [Hfull|Hempty].
    - destruct (waitlist conf); simpl; auto.
      destruct (Z.gtb_spec (available_slots conf) 0); [lia|auto].
    - now rewrite Hempty. }
  rewrite L. f_equal.
  assert (Hconf : set_waitlist (waitlist conf)
                    (set_available_slots (available_slots conf) conf) = conf)
    by now destruct conf.
  rewrite Hconf, set_same by auto. now destruct st.
Qed.

Lemma idle_pass_changes_nothing_witness :
  process_waitlist (PyStr "rocqconf") (3 * hour) (run one_waiting initial)
  = Ok (run one_waiting initial).
Proof.
  apply (idle_pass_changes_nothing (run one_waiting initial) (3 * hour) "rocqconf").
  intros conf Hconf. left. vm_compute in Hconf. injection Hconf as <-.
  vm_compute. intros H. discriminate H.
Defined.

(** ** The two eligibility tests *)

Lemma promotion_loop_keeps_bookings c now queue :
  forall slots st queue' slots' st',
    promotion_loop c now queue slots st = (queue', slots', st') ->
    wf st ->
    forall id b, PyDict.get id (bookings st) = Some b ->
                 PyDict.get id (bookings st') = Some b.
Proof.
  induction queue as [|head rest IH]; simpl; intros slots st queue' slots' st' E W id b Hb.
  - now injection E as <- <- <-.
  - destruct (slots >? 0); [|now injection E as <- <- <-].
    destruct (PyDict.get head (waitlists st)) as [e|]; [|now injection E as <- <- <-].
    destruct (now - w_timestamp e >? hour); [|now injection E as <- <- <-].
    apply (IH _ _ _ _ _ E).
    + apply (wf_del_waitlist head
               (mkState (conferences st) (users st) _ (waitlists st) _)).
      now apply wf_issue_booking.
    + simpl. rewrite get_set_other; auto.
      intros Heq. rewrite <- Heq in Hb.
      pose proof (wf_fresh_bookings st W (issued st) (N.le_refl _)) as Fb.
      pose proof (eq_trans (eq_sym Hb) Fb). discriminate.
Qed.

(** X21: The manual and the automatic path use opposite age tests.  For a
    live entry at the head of its queue, with a free slot, exactly one of
    them takes it at any clock reading: within the hour
    [confirm_waitlist_booking] turns it into a booking while a promotion pass
    leaves it waiting; after the hour the confirmation is refused as expired
    while a promotion pass books it. *)
Theorem eligibility_windows_complement st now id e conf rest :
  reachable st ->
  PyDict.get id (waitlists st) = Some e ->
  PyDict.get (w_Conference e) (conferences st) = Some conf ->
  waitlist conf = id :: rest ->
  0 < available_slots conf ->
  exists st',
    process_waitlist (PyStr (w_Conference e)) now st = Ok st'
    /\ ((now - w_timestamp e <= hour
         /\ fst (confirm_waitlist_booking now id st)
            = Response (JConfirmed (issued st) "Booking confirmed from waitlist.") 200
         /\ PyDict.get id (waitlists st') = Some e
         /\ bookings st' = bookings st)
        \/ (hour < now - w_timestamp e
            /\ fst (confirm_waitlist_booking now id st) = ConfirmationExpired
            /\ PyDict.get id (waitlists st') = None
            /\ PyDict.get (issued st) (bookings st')
               = Some (mkBooking (issued st) (w_UserID e) (w_Conference e) now))).
Proof.
  intros R Hw Hc Hq Hslots. pose proof (reachable_wf st R) as W.
  unfold process_waitlist, confirm_waitlist_booking. rewrite Hw, Hc, Hq.
  destruct (Z.leb_spec (available_slots conf) 0); [lia|].
  cbn [promotion_loop list_remove].
  destruct (Z.gtb_spec (available_slots conf) 0); [|lia].
  rewrite Hw, N.eqb_refl.
  destruct (Z.gtb_spec (now - w_timestamp e) hour) as [Hstale|Hfresh].
  - cbn [uuid4 fst snd with_bookings with_waitlists bookings waitlists conferences
           users issued].
    match goal with
    | |- context [promotion_loop ?a ?b ?c ?d ?s] =>
        destruct (promotion_loop a b c d s) as [[queue' slots'] st1] eqn:L
    end.
    eexists. split; [reflexivity|]. right. simpl.
    destruct (promotion_loop_facts _ _ _ _ _ _ _ _ L) as (_ & _ & _ & _ & _ & Hwl & _).
    repeat split; auto.
    + destruct (PyDict.get id (waitlists st1)) as [e'|] eqn:E'; auto.
      apply Hwl in E'. simpl in E'. now rewrite get_del_same in E'.
    + apply (promotion_loop_keeps_bookings _ _ _ _ _ _ _ _ L).
      * apply (wf_del_waitlist id
                 (mkState (conferences st) (users st) _ (waitlists st) _)).
        now apply wf_issue_booking.
      * simpl. apply get_set_same.
  - eexists. split; [reflexivity|]. left. simpl. repeat split; auto.
Qed.

Lemma eligibility_windows_complement_witness :
  exists st',
    process_waitlist (PyStr "rocqconf") (2 + 2 * hour) (run (cancel_scenario 3) initial)
    = Ok st'
    /\ ((2 + 2 * hour - 2 <= hour
         /\ fst (confirm_waitlist_booking (2 + 2 * hour) 1%N
                   (run (cancel_scenario 3) initial))
            = Response (JConfirmed 2%N "Booking confirmed from waitlist.") 200
         /\ PyDict.get 1%N (waitlists st') = Some (mkWaitlistEntry "bob" "rocqconf" 2)
         /\ bookings st' = bookings (run (cancel_scenario 3) initial))
        \/ (hour < 2 + 2 * hour - 2
            /\ fst (confirm_waitlist_booking (2 + 2 * hour) 1%N
                      (run (cancel_scenario 3) initial))
               = ConfirmationExpired
            /\ PyDict.get 1%N (waitlists st') = None
            /\ PyDict.get 2%N (bookings st')
               = Some (mkBooking 2%N "bob" "rocqconf" (2 + 2 * hour)))).
Proof.
  exact (eligibility_windows_complement (run (cancel_scenario 3) initial)
           (2 + 2 * hour) 1%N (mkWaitlistEntry "bob" "rocqconf" 2)
           (rocqconf_with 1 [1%N]) []
           (run_reachable (cancel_scenario 3) initial reachable_initial)
           eq_refl eq_refl eq_refl eq_refl).
Defined.

(** ** Expired confirmations *)

(** [list.remove] takes out the first occurrence and nothing else. *)
Lemma list_remove_split x q r :
  list_remove x q = Some r ->
  exists pre post, q = pre ++ x :: post /\ ~ In x pre /\ r = pre ++ post.
Proof.
  revert r. induction q as [|y q IH]; simpl; intros r Hr; [discriminate|].
  destruct (N.eqb_spec x y) as [->|Hne].
  - injection Hr as <-. exists [], q. auto.
  - destruct (list_remove x q) as [r'|]; [|discriminate].
    injection Hr as <-. destruct (IH _ eq_refl) as (pre & post & -> & Hpre & ->).
    exists (y :: pre), post. repeat split; auto.
    intros [Heq|Hin]; [congruence|auto].
Qed.

Lemma keys_set_present (k : string) (v v0 : conference) d :
  PyDict.get k d = Some v0 -> map fst (PyDict.set k v d) = map fst d.
Proof.
  induction d as [|[k' v'] d IH]; simpl; [discriminate|].
  destruct (String.eqb_spec k k') as [->|Hne]; simpl; auto.
  intros E. now rewrite IH.
Qed.

(** The state the expired branch of [confirm_waitlist_booking] leaves. *)
Lemma expired_branch_moves st id c conf q :
  PyDict.get c (conferences st) = Some conf ->
  list_remove id (waitlist conf) = Some q ->
  exists pre post,
    moved_to_tail id c conf pre post st
      (with_conferences
         (PyDict.set c (set_waitlist (q ++ [id]) conf) (conferences st)) st).
Proof.
  intros Hc Hq. destruct (list_remove_split _ _ _ Hq) as (pre & post & Hsplit & Hpre & ->).
  exists pre, post. unfold moved_to_tail. simpl.
  rewrite get_set_same. unfold set_waitlist. rewrite <- app_assoc.
  repeat split; auto.
  - intros c' Hne. apply get_set_other. congruence.
  - now apply (keys_set_present c _ conf).
Qed.

(** C5: confirming a live waitlist entry more than one hour after it was
    enqueued, while its conference has a free slot, is answered with the
    confirmation-expired error.  The identifier, which stood once in the
    queue, between [pre] and [post], now stands once at the tail: the queue
    is [pre ++ post ++ [id]].  The entry is still in the waitlist store with
    the timestamp it had, the conference keeps its slots and every other
    field, and nothing else has changed. *)
Theorem expired_confirmation_requeues st now id e conf :
  reachable st ->
  PyDict.get id (waitlists st) = Some e ->
  PyDict.get (w_Conference e) (conferences st) = Some conf ->
  0 < available_slots conf ->
  hour < now - w_timestamp e ->
  exists pre post,
    waitlist conf = pre ++ id :: post
    /\ ~ In id pre
    /\ ~ In id post
    /\ fst (confirm_waitlist_booking now id st) = ConfirmationExpired
    /\ moved_to_tail id (w_Conference e) conf pre post st
         (snd (confirm_waitlist_booking now id st))
    /\ queue_of (w_Conference e) (snd (confirm_waitlist_booking now id st))
       = Some (pre ++ post ++ [id])
    /\ slots_of (w_Conference e) (snd (confirm_waitlist_booking now id st))
       = Some (available_slots conf)
    /\ PyDict.get id (waitlists (snd (confirm_waitlist_booking now id st))) = Some e.
Proof.
  intros R Hw Hc Hslots Hlate.
  destruct (wf_queued st (reachable_wf st R) _ _ Hw) as (conf0 & Hc0 & Hin).
  assert (conf0 = conf) as -> by congruence.
  destruct (list_remove_present _ _ Hin) as [q Hq].
  destruct (expired_branch_moves st id _ conf q Hc Hq) as (pre & post & M).
  exists pre, post.
  assert (E : confirm_waitlist_booking now id st =
              (ConfirmationExpired,
               with_conferences
                 (PyDict.set (w_Conference e) (set_waitlist (q ++ [id]) conf)
                    (conferences st)) st)).
  { unfold confirm_waitlist_booking. rewrite Hw, Hc.
    destruct (Z.leb_spec (available_slots conf) 0); [lia|].
    destruct (Z.gtb_spec (now - w_timestamp e) hour); [|lia].
    now rewrite Hq. }
  rewrite E. cbn [fst snd].
  pose proof M as (_ & Hsplit & Hpre & Hget & _ & _ & _ & _ & Hwl & _).
  pose proof (ok_queue_unique st (reachable_consistent st R) _ conf Hc) as Hnd.
  rewrite Hsplit in Hnd. apply NoDup_remove_2 in Hnd.
  split; [exact Hsplit|]. split; [exact Hpre|].
  split; [intros Hpost; apply Hnd; apply in_or_app; now right|].
  split; [reflexivity|]. split; [exact M|].
  split; [unfold queue_of; now rewrite Hget|].
  split; [unfold slots_of; now rewrite Hget|].
  now rewrite Hwl.
Qed.

(** bob (entry 1) and carol (entry 2) wait, in this order; bob confirms two
    hours late: the queue is carol, bob afterwards. *)
Lemma expired_confirmation_requeues_witness :
  fst (confirm_waitlist_booking (2 + 2 * hour) 1%N (run two_waiting initial))
  = ConfirmationExpired
  /\ queue_of "rocqconf"
       (snd (confirm_waitlist_booking (2 + 2 * hour) 1%N (run two_waiting initial)))
     = Some [2%N; 1%N]
  /\ slots_of "rocqconf"
       (snd (confirm_waitlist_booking (2 + 2 * hour) 1%N (run two_waiting initial)))
     = Some 1
  /\ PyDict.get 1%N
       (waitlists
          (snd (confirm_waitlist_booking (2 + 2 * hour) 1%N (run two_waiting initial))))
     = Some (mkWaitlistEntry "bob" "rocqconf" 2).
Proof.
  destruct (expired_confirmation_requeues (run two_waiting initial) (2 + 2 * hour) 1%N
              (mkWaitlistEntry "bob" "rocqconf" 2) (rocqconf_with 1 [1%N; 2%N])
              (run_reachable two_waiting initial reachable_initial)
              eq_refl eq_refl eq_refl eq_refl)
    as (pre & post & Hsplit & Hpre & _ & Hfst & _ & Hqueue & Hslots & Hentry).
  assert (Hpp : pre = [] /\ post = [2%N]).
  { change (waitlist (rocqconf_with 1 [1%N; 2%N])) with [1%N; 2%N] in Hsplit.
    destruct pre as [|x pre].
    - simpl in Hsplit. injection Hsplit as <-. auto.
    - simpl in Hsplit. injection Hsplit as <- _. exfalso. apply Hpre. now left. }
  destruct Hpp as [-> ->].
  repeat split; assumption.
Defined.

(** ** Error answers and the dictionaries *)

(** No validator message is the confirmation-expired text. *)
Lemma validate_user_message data ok message :
  validate_user data = (ok, message) ->
  Response (JError message) 400 <> ConfirmationExpired.
Proof.
  unfold validate_user, ConfirmationExpired.
  repeat match goal with
         | |- context [if ?b then _ else _] => destruct b
         end; intros [= <- <-] H; discriminate H.
Qed.

Lemma validate_conference_message data ok message :
  validate_conference data = Ok (ok, message) ->
  Response (JError message) 400 <> ConfirmationExpired.
Proof.
  unfold validate_conference, ConfirmationExpired.
  repeat match goal with
         | |- context [if ?b then _ else _] => destruct b
         | |- context [match ?o with _ => _ end] => destruct o
         end; try discriminate; intros [= <- <-] H; discriminate H.
Qed.

(** C6, as the code has it: a request answered with an error value leaves
    every dictionary exactly as it was, except the confirmation-expired
    answer.  That answer comes from a late confirmation of a live entry only,
    and what it changes is the queue of the entry's conference and nothing
    else: the identifier is taken from its place and put at the tail. *)
Theorem error_leaves_stores now r st :
  is_error_value (fst (handle now r st)) = true ->
  (fst (handle now r st) <> ConfirmationExpired -> snd (handle now r st) = st)
  /\ (fst (handle now r st) = ConfirmationExpired ->
      exists id e conf pre post,
        r = ConfirmWaitlistBooking id
        /\ PyDict.get id (waitlists st) = Some e
        /\ hour < now - w_timestamp e
        /\ moved_to_tail id (w_Conference e) conf pre post st (snd (handle now r st))).
Proof.
  destruct r as [data|data|c u|id|id|id]; simpl.
  - unfold add_user. destruct (validate_user data) as [[] message] eqn:V; simpl.
    + destruct (PyDict.contains _ _); simpl; [|discriminate].
      intros _. split; [reflexivity|intros H; discriminate H].
    + intros _. split; [reflexivity|].
      intros H. now elim (validate_user_message _ _ _ V).
  - unfold add_conference.
    destruct (validate_conference data) as [[[] message]|e] eqn:V; simpl;
      [| |discriminate].
    + destruct (PyDict.contains _ _); simpl; [|discriminate].
      intros _. split; [reflexivity|intros H; discriminate H].
    + intros _. split; [reflexivity|].
      intros H. now elim (validate_conference_message _ _ _ V).
  - unfold book_conference.
    destruct (PyDict.get c (conferences st)) as [conf|]; simpl;
      [|intros _; split; [reflexivity|intros H; discriminate H]].
    destruct (PyDict.contains u (users st)); simpl;
      [|intros _; split; [reflexivity|intros H; discriminate H]].
    destruct (find_booking u c (bookings st)); simpl;
      [intros _; split; [reflexivity|intros H; discriminate H]|].
    destruct (available_slots conf <=? 0); simpl; discriminate.
  - unfold confirm_waitlist_booking.
    destruct (PyDict.get id (waitlists st)) as [e|] eqn:Hw; simpl;
      [|intros _; split; [reflexivity|intros H; discriminate H]].
    destruct (PyDict.get (w_Conference e) (conferences st)) as [conf|] eqn:Hc; simpl;
      [|intros _; split; [reflexivity|intros H; discriminate H]].
    destruct (available_slots conf <=? 0); simpl;
      [intros _; split; [reflexivity|intros H; discriminate H]|].
    destruct (Z.gtb_spec (now - w_timestamp e) hour) as [Hlate|Hintime]; simpl;
      [|discriminate].
    destruct (list_remove id (waitlist conf)) as [q|] eqn:Hq; simpl; [|discriminate].
    intros _. split; [intros Hne; now elim Hne|].
    intros _. destruct (expired_branch_moves st id _ conf q Hc Hq) as (pre & post & M).
    exists id, e, conf, pre, post. auto.
  - unfold cancel_booking.
    destruct (PyDict.get id (bookings st)) as [b|]; simpl.
    + destruct (PyDict.get (b_Conference b) (conferences st)) as [conf|]; simpl;
        [|discriminate].
      destruct (waitlist conf); simpl; discriminate.
    + destruct (PyDict.get id (waitlists st)); simpl; discriminate.
  - unfold booking_status.
    destruct (PyDict.get id (bookings st)); simpl; [discriminate|].
    destruct (PyDict.get id (waitlists st)); simpl; [discriminate|].
    intros _. split; [reflexivity|intros H; discriminate H].
Qed.

(** alice, who holds a booking, asks again: the duplicate error, and the
    dictionaries as they were. *)
Lemma error_leaves_stores_witness :
  snd (handle 9 (BookConference "rocqconf" "alice") (run two_waiting initial))
  = run two_waiting initial.
Proof.
  refine (proj1 (error_leaves_stores 9 (BookConference "rocqconf" "alice")
                   (run two_waiting initial) eq_refl) _).
  vm_compute. intros H. discriminate H.
Defined.

(** ** The promotion pass, identifier by identifier *)

Lemma booked_for_ext c now ws ws' ids :
  (forall id, In id ids -> PyDict.get id ws' = PyDict.get id ws) ->
  forall next, booked_for c now ws' next ids = booked_for c now ws next ids.
Proof.
  induction ids as [|id ids IH]; simpl; intros Hext next; auto.
  rewrite (Hext id) by auto. destruct (PyDict.get id ws); auto.
  f_equal. apply IH. auto.
Qed.

(** What the loop does, told by the identifiers it promotes: a prefix
    [promoted] of the queue, each of them live and older than an hour, as long
    as there are slots; then it stops, on an empty rest, on the last slot, or
    on a head that it cannot promote and puts back at the tail. *)
Lemma promotion_loop_prefix c now queue :
  forall slots st queue' slots' st',
    promotion_loop c now queue slots st = (queue', slots', st') ->
    wf st -> 0 <= slots ->
    exists promoted remaining,
      queue = promoted ++ remaining
      /\ Forall (fun id => exists e, PyDict.get id (waitlists st) = Some e
                                     /\ hour < now - w_timestamp e) promoted
      /\ Z.of_nat (List.length promoted) <= slots
      /\ slots' = slots - Z.of_nat (List.length promoted)
      /\ bookings st'
         = bookings st ++ booked_for c now (waitlists st) (issued st) promoted
      /\ (forall id, In id promoted -> PyDict.get id (waitlists st') = None)
      /\ (forall id, ~ In id promoted ->
            PyDict.get id (waitlists st') = PyDict.get id (waitlists st))
      /\ ((queue' = remaining /\ (remaining = [] \/ slots' = 0))
          \/ (exists head rest,
                remaining = head :: rest
                /\ 0 < slots'
                /\ queue' = rest ++ [head]
                /\ (PyDict.get head (waitlists st') = None
                    \/ exists e, PyDict.get head (waitlists st') = Some e
                                 /\ now - w_timestamp e <= hour))).
Proof.
  induction queue as [|head rest IH]; intros slots st queue' slots' st' E W Hslots;
    simpl in E.
  - injection E as <- <- <-. exists [], []. simpl.
    repeat (split; [first [reflexivity|constructor|lia|now rewrite app_nil_r
                           |intros id []|auto]|]).
    left. auto.
  - destruct (Z.gtb_spec slots 0) as [Hpos|Hnpos].
    2:{ injection E as <- <- <-. exists [], (head :: rest). simpl.
        repeat (split; [first [reflexivity|constructor|lia|now rewrite app_nil_r
                               |intros id []|auto]|]).
        left. split; auto. right. lia. }
    destruct (PyDict.get head (waitlists st)) as [e|] eqn:Hw.
    2:{ injection E as <- <- <-. exists [], (head :: rest). simpl.
        repeat (split; [first [reflexivity|constructor|lia|now rewrite app_nil_r
                               |intros id []|auto]|]).
        right. exists head, rest. repeat split; auto; lia. }
    destruct (Z.gtb_spec (now - w_timestamp e) hour) as [Hstale|Hfresh].
    2:{ injection E as <- <- <-. exists [], (head :: rest). simpl.
        repeat (split; [first [reflexivity|constructor|lia|now rewrite app_nil_r
                               |intros id []|auto]|]).
        right. exists head, rest. split; [reflexivity|]. split; [lia|].
        split; [reflexivity|]. right. exists e. auto. }
    pose proof (wf_fresh_bookings st W (issued st) (N.le_refl _)) as Fb.
    apply IH in E; [|
      apply (wf_del_waitlist head
               (mkState (conferences st) (users st) _ (waitlists st) _));
      now apply wf_issue_booking | lia].
    destruct E as (promoted & remaining & -> & Hall & Hlen & -> & Hbk & Hgone & Hkept & Hstop).
    cbn [bookings waitlists issued with_waitlists with_bookings] in *.
    assert (Hhead : ~ In head promoted).
    { intros Hin. rewrite Forall_forall in Hall.
      destruct (Hall _ Hin) as (e' & He' & _). now rewrite get_del_same in He'. }
    exists (head :: promoted), remaining.
    split; [reflexivity|].
    split.
    { constructor; [eauto|]. rewrite Forall_forall in *. intros id Hin.
      destruct (Hall _ Hin) as (e' & He' & Hold). exists e'. split; auto.
      now apply get_del_Some in He'. }
    split; [cbn [List.length]; lia|].
    split; [cbn [List.length]; lia|].
    split.
    { rewrite Hbk, set_fresh by exact Fb. rewrite <- app_assoc. f_equal.
      cbn [booked_for app]. rewrite Hw. f_equal.
      apply booked_for_ext. intros id Hin. apply get_del_other.
      intros <-. contradiction. }
    split.
    { intros id [<-|Hin]; auto. rewrite (Hkept _ Hhead). apply get_del_same. }
    split.
    { intros id Hid. rewrite Hkept by (intros Hin; apply Hid; now right).
      apply get_del_other. intros <-. apply Hid. now left. }
    exact Hstop.
Qed.

(** C7: [process_waitlist], called on the name of a registered conference,
    works down the queue from its head.  It promotes a prefix [promoted] of
    the queue: each of these identifiers has a live entry enqueued more than
    an hour ago, and for each of them, in this order, a booking for the
    entry's user is appended to [bookings], one slot is taken and the entry is
    gone from the waitlist store.  The pass ends when the rest of the queue is
    empty, when the slots are used up, or at the first head it does not
    promote: that head goes to the tail of the queue and the pass stops at
    once.  Nothing in the rest of the queue is promoted: those entries are in
    the waitlist store as before and no booking is made for them. *)
Theorem automatic_promotion st now c conf :
  reachable st ->
  PyDict.get c (conferences st) = Some conf ->
  exists st' promoted remaining,
    process_waitlist (PyStr c) now st = Ok st'
    /\ waitlist conf = promoted ++ remaining
    /\ Forall (fun id => exists e, PyDict.get id (waitlists st) = Some e
                                   /\ hour < now - w_timestamp e) promoted
    /\ Z.of_nat (List.length promoted) <= available_slots conf
    /\ slots_of c st' = Some (available_slots conf - Z.of_nat (List.length promoted))
    /\ bookings st'
       = bookings st ++ booked_for c now (waitlists st) (issued st) promoted
    /\ (forall id, In id promoted -> PyDict.get id (waitlists st') = None)
    /\ (forall id, In id remaining ->
          PyDict.get id (waitlists st') = PyDict.get id (waitlists st))
    /\ (forall id, ~ In id promoted ->
          PyDict.get id (waitlists st') = PyDict.get id (waitlists st))
    /\ ((queue_of c st' = Some remaining
         /\ (remaining = []
             \/ available_slots conf = Z.of_nat (List.length promoted)))
        \/ (exists head rest,
              remaining = head :: rest
              /\ Z.of_nat (List.length promoted) < available_slots conf
              /\ queue_of c st' = Some (rest ++ [head])
              /\ (PyDict.get head (waitlists st) = None
                  \/ exists e, PyDict.get head (waitlists st) = Some e
                               /\ now - w_timestamp e <= hour)))
    /\ users st' = users st
    /\ (forall c', c' <> c ->
          PyDict.get c' (conferences st') = PyDict.get c' (conferences st)).
Proof.
  intros R Hc. pose proof (reachable_wf st R) as W.
  pose proof (ok_queue_unique st (reachable_consistent st R) c conf Hc) as Hnd.
  pose proof (wf_slots st W c conf Hc) as Hslots.
  unfold process_waitlist. rewrite Hc.
  destruct (promotion_loop c now (waitlist conf) (available_slots conf) st)
    as [[queue' slots'] st1] eqn:L.
  destruct (promotion_loop_facts _ _ _ _ _ _ _ _ L) as (Hcs & Hus & _).
  destruct (promotion_loop_prefix _ _ _ _ _ _ _ _ L W Hslots)
    as (promoted & remaining & Hq & Hall & Hlen & -> & Hbk & Hgone & Hkept & Hstop).
  assert (Hbehind : forall id, In id remaining -> ~ In id promoted).
  { intros id Hin Hin'. rewrite Hq in Hnd.
    exact (NoDup_app_disjoint _ _ id Hnd Hin' Hin). }
  eexists. exists promoted, remaining.
  split; [reflexivity|]. unfold slots_of, queue_of.
  cbn [conferences users bookings waitlists with_conferences].
  rewrite get_set_same. cbn [option_map available_slots waitlist set_waitlist
                              set_available_slots].
  split; [exact Hq|]. split; [exact Hall|]. split; [exact Hlen|].
  split; [reflexivity|]. split; [exact Hbk|]. split; [exact Hgone|].
  split; [intros id Hin; apply Hkept; auto|]. split; [exact Hkept|].
  split.
  { destruct Hstop as [[-> Hend]|(head & rest & -> & Hpos & -> & Hhead)].
    - left. split; auto. destruct Hend; auto. right. lia.
    - right. exists head, rest. split; [reflexivity|]. split; [lia|].
      split; [reflexivity|].
      rewrite Hkept in Hhead by (apply Hbehind; now left). exact Hhead. }
  split; [exact Hus|].
  intros c' Hne. rewrite Hcs. apply get_set_other. congruence.
Qed.

(** The mixed queue (carol, dave, bob; three slots) an hour and a bit after
    dave joined: the instance of the statement. *)
Lemma automatic_promotion_witness :
  exists st' promoted remaining,
    process_waitlist (PyStr "rocqconf") (hour + 5) (run mixed_queue initial) = Ok st'
    /\ waitlist (rocqconf_with 3 [2%N; 3%N; 1%N]) = promoted ++ remaining
    /\ Forall (fun id =>
                 exists e, PyDict.get id (waitlists (run mixed_queue initial)) = Some e
                           /\ hour < hour + 5 - w_timestamp e) promoted
    /\ Z.of_nat (List.length promoted) <= available_slots (rocqconf_with 3 [2%N; 3%N; 1%N])
    /\ slots_of "rocqconf" st'
       = Some (available_slots (rocqconf_with 3 [2%N; 3%N; 1%N])
               - Z.of_nat (List.length promoted))
    /\ bookings st'
       = bookings (run mixed_queue initial)
         ++ booked_for "rocqconf" (hour + 5) (waitlists (run mixed_queue initial))
              (issued (run mixed_queue initial)) promoted
    /\ (forall id, In id promoted -> PyDict.get id (waitlists st') = None)
    /\ (forall id, In id remaining ->
          PyDict.get id (waitlists st')
          = PyDict.get id (waitlists (run mixed_queue initial)))
    /\ (forall id, ~ In id promoted ->
          PyDict.get id (waitlists st')
          = PyDict.get id (waitlists (run mixed_queue initial)))
    /\ ((queue_of "rocqconf" st' = Some remaining
         /\ (remaining = []
             \/ available_slots (rocqconf_with 3 [2%N; 3%N; 1%N])
                = Z.of_nat (List.length promoted)))
        \/ (exists head rest,
              remaining = head :: rest
              /\ Z.of_nat (List.length promoted)
                 < available_slots (rocqconf_with 3 [2%N; 3%N; 1%N])
              /\ queue_of "rocqconf" st' = Some (rest ++ [head])
              /\ (PyDict.get head (waitlists (run mixed_queue initial)) = None
                  \/ exists e,
                       PyDict.get head (waitlists (run mixed_queue initial)) = Some e
                       /\ hour + 5 - w_timestamp e <= hour)))
    /\ users st' = users (run mixed_queue initial)
    /\ (forall c', c' <> "rocqconf" ->
          PyDict.get c' (conferences st')
          = PyDict.get c' (conferences (run mixed_queue initial))).
Proof.
  exact (automatic_promotion (run mixed_queue initial) (hour + 5) "rocqconf"
           (rocqconf_with 3 [2%N; 3%N; 1%N])
           (run_reachable mixed_queue initial reachable_initial) eq_refl).
Defined.

(** On the mixed queue the promoted prefix is carol alone: her booking is
    the one appended, under identifier 4; dave, not yet an hour in the queue,
    goes to the tail, and bob behind him stays in the waitlist store. *)
Example mixed_queue_prefix :
  exists st',
    process_waitlist (PyStr "rocqconf") (hour + 5) (run mixed_queue initial) = Ok st'
    /\ queue_of "rocqconf" (run mixed_queue initial) = Some ([2%N] ++ [3%N; 1%N])
    /\ queue_of "rocqconf" st' = Some ([1%N] ++ [3%N])
    /\ slots_of "rocqconf" st' = Some (3 - 1)
    /\ booked_for "rocqconf" (hour + 5) (waitlists (run mixed_queue initial))
         (issued (run mixed_queue initial)) [2%N]
       = [(4%N, mkBooking 4%N "carol" "rocqconf" (hour + 5))]
    /\ bookings st'
       = bookings (run mixed_queue initial)
         ++ [(4%N, mkBooking 4%N "carol" "rocqconf" (hour + 5))]
    /\ PyDict.get 2%N (waitlists st') = None
    /\ PyDict.get 3%N (waitlists st') = Some (mkWaitlistEntry "dave" "rocqconf" hour)
    /\ PyDict.get 1%N (waitlists st') = Some (mkWaitlistEntry "bob" "rocqconf" 2).
Proof.
  vm_compute. eexists. split; [reflexivity|]. vm_compute. auto 12.
Qed.
